(** * popular_names_app.py: the loader, the aggregator and the filter

    A shallow embedding of [src/popular_names_app.py] and the properties its
    specification states about it.

    Conventions of the model.
    - A ZIP archive is the list of its members in directory order, each a
      name and the rows that the CSV tokenizer delivers for it (a row is the
      list of its fields; blank lines are already gone).
    - Python strings are [string]s of ASCII characters.
    - Integers are mathematical integers ([Z]) and a proportion is an exact
      rational in lowest terms, or one of the three special values that a
      division by zero produces. Neither the 64-bit range of a pandas integer
      column nor the rounding of binary64 is modelled.
    - A call that can raise returns a [result]. *)

From Stdlib Require Import List String Ascii Bool Arith ZArith QArith Qreduction.
From Stdlib Require Import Lia Permutation Relations Sorted.
Import ListNotations.

Local Open Scope string_scope.
Local Open Scope list_scope.
Local Open Scope Z_scope.

Set Implicit Arguments.

(** ** Exceptions and results *)

(** The exceptions that lines 16-25 of the source can raise. *)
Inductive exception : Type :=
| EmptyDataError   (* pandas.errors.EmptyDataError: no columns to parse *)
| ParserError      (* pandas.errors.ParserError: a line has too many fields *)
| ValueError.      (* int() of a bad literal, a column-count mismatch,
                      or pd.concat of no frames *)

Inductive result (A : Type) : Type :=
| Ok (a : A)
| Raise (e : exception).

Arguments Ok {A} a.
Arguments Raise {A} e.

Definition bind {A B : Type} (m : result A) (k : A -> result B) : result B :=
  match m with
  | Ok a => k a
  | Raise e => Raise e
  end.

Notation "x <- m ;; k" := (bind m (fun x => k))
  (at level 61, m at next level, right associativity).

(** ** Python built-ins used by the source *)

Module Py.

(** [s[i:j]] for [0 <= i <= j]: the slice is clipped to the string. *)
Definition slice (i j : nat) (s : string) : string :=
  substring i (j - i) s.

(** [s.endswith(suffix)]. *)
Definition endswith (s suffix : string) : bool :=
  let n := String.length s in
  let m := String.length suffix in
  (m <=? n)%nat && (substring (n - m) m s =? suffix)%string.

Definition lower_char (c : ascii) : ascii :=
  let n := nat_of_ascii c in
  if ((65 <=? n) && (n <=? 90))%nat then ascii_of_nat (n + 32) else c.

(** [s.lower()], on ASCII letters. *)
Fixpoint lower (s : string) : string :=
  match s with
  | EmptyString => EmptyString
  | String c s' => String (lower_char c) (lower s')
  end.

(** White space as [int] strips it: TAB, LF, VT, FF, CR, FS, GS, RS, US
    and the space. *)
Definition is_space (c : ascii) : bool :=
  let n := nat_of_ascii c in
  (((9 <=? n) && (n <=? 13)) || ((28 <=? n) && (n <=? 32)))%nat.

Definition digit_value (c : ascii) : option Z :=
  let n := nat_of_ascii c in
  if ((48 <=? n) && (n <=? 57))%nat then Some (Z.of_nat (n - 48)) else None.

Fixpoint lstrip (l : list ascii) : list ascii :=
  match l with
  | c :: l' => if is_space c then lstrip l' else l
  | [] => []
  end.

Definition strip (l : list ascii) : list ascii :=
  rev (lstrip (rev (lstrip l))).

(** Decimal digits, with single underscores allowed between two digits.
    [after_digit] tells whether the previous character was a digit. *)
Fixpoint digits (acc : Z) (after_digit : bool) (l : list ascii) : option Z :=
  match l with
  | [] => if after_digit then Some acc else None
  | c :: l' =>
      match digit_value c with
      | Some d => digits (10 * acc + d) true l'
      | None =>
          if (c =? "_")%char && after_digit then digits acc false l' else None
      end
  end.

Definition int_literal (l : list ascii) : option Z :=
  match strip l with
  | "+"%char :: l' => digits 0 false l'
  | "-"%char :: l' => option_map Z.opp (digits 0 false l')
  | l' => digits 0 false l'
  end.

(** [int(s)]: raises [ValueError] unless [s] is, between optional white
    space, an optionally signed decimal literal. *)
Definition int (s : string) : result Z :=
  match int_literal (list_ascii_of_string s) with
  | Some z => Ok z
  | None => Raise ValueError
  end.

End Py.

(** ** The archive: [zipfile.ZipFile] *)

Module ZipFile.

(** A member: its name and the rows of fields it holds. *)
Definition member : Type := (string * list (list string))%type.

Definition archive : Type := list member.

(** [z.namelist()]: the names in directory order, repeated names included. *)
Definition namelist (z : archive) : list string := map fst z.

(** [z.open(file)]: a name written twice resolves to its last member.
    Every name the source opens comes from [namelist]; an absent name
    reads as no row here. *)
Definition open (z : archive) (file : string) : list (list string) :=
  match find (fun m => (fst m =? file)%string) (rev z) with
  | Some m => snd m
  | None => []
  end.

End ZipFile.

(** ** The pandas operations used by the source *)

Module Pd.

(** The strings [read_csv] reads as a missing value. *)
Definition na_values : list string :=
  [""; "#N/A"; "#N/A N/A"; "#NA"; "-1.#IND"; "-1.#QNAN"; "-NaN"; "-nan";
   "1.#IND"; "1.#QNAN"; "<NA>"; "N/A"; "NA"; "NULL"; "NaN"; "None"; "n/a";
   "nan"; "null"].

Definition is_na (field : string) : bool :=
  existsb (fun v => (v =? field)%string) na_values.

(** White space as the integer conversion skips it. *)
Definition is_space_ascii (c : ascii) : bool :=
  let n := nat_of_ascii c in
  ((n =? 32) || ((9 <=? n) && (n <=? 13)))%nat.

Fixpoint skip_spaces (l : list ascii) : list ascii :=
  match l with
  | c :: l' => if is_space_ascii c then skip_spaces l' else l
  | [] => []
  end.

(** At least one digit, then only white space. *)
Fixpoint read_digits (acc : Z) (seen : bool) (l : list ascii) : option Z :=
  match l with
  | [] => if seen then Some acc else None
  | c :: l' =>
      match Py.digit_value c with
      | Some d => read_digits (10 * acc + d) true l'
      | None => if seen && forallb is_space_ascii l then Some acc else None
      end
  end.

(** The integer a field converts to, if it does. *)
Definition to_integer (field : string) : option Z :=
  match skip_spaces (list_ascii_of_string field) with
  | "-"%char :: l => option_map Z.opp (read_digits 0 false l)
  | "+"%char :: l => read_digits 0 false l
  | l => read_digits 0 false l
  end.

(** A cell of a column that [read_csv] tries to read as numbers. The
    column comes out as int64 exactly when every cell is a [CInt]. *)
Inductive cell : Type :=
| CInt (z : Z)
| CNaN
| COther (field : string).   (* neither missing nor an integer *)

Definition count_cell (field : string) : cell :=
  if is_na field then CNaN
  else match to_integer field with
       | Some z => CInt z
       | None => COther field
       end.

(** A cell of a text column: [None] is the missing value. A column made of
    numerals only would be read as numbers; that is not followed here. *)
Definition text_cell (field : string) : option string :=
  if is_na field then None else Some field.

(** A short line is filled up with empty fields. *)
Definition pad (width : nat) (line : list string) : list string :=
  line ++ repeat "" (width - List.length line).

(** [pd.read_csv(f, header=None)]: the first line fixes the number of
    columns; a later line with more fields is an error, one with fewer is
    padded. The result is the width and the lines. *)
Definition read_csv (lines : list (list string))
  : result (nat * list (list string)) :=
  match lines with
  | [] => Raise EmptyDataError
  | first :: rest =>
      let width := List.length first in
      if existsb (fun line => (width <? List.length line)%nat) rest
      then Raise ParserError
      else Ok (width, map (pad width) lines)
  end.

(** [df.columns = names]: the lengths must agree. *)
Definition set_columns (names : list string)
  (df : nat * list (list string)) : result (list (list string)) :=
  if (fst df =? List.length names)%nat then Ok (snd df) else Raise ValueError.

(** [pd.concat(dfs, ignore_index=True)]: no frame at all is an error. *)
Definition concat {A : Type} (dfs : list (list A)) : result (list A) :=
  match dfs with
  | [] => Raise ValueError
  | _ => Ok (List.concat dfs)
  end.

(** The row labels [ignore_index=True] gives: 0, 1, 2, ... *)
Definition range_index {A : Type} (t : list A) : list (nat * A) :=
  combine (seq 0 (List.length t)) t.

(** A float64 value: a finite one is an exact rational in lowest terms. *)
Inductive float64 : Type :=
| Fin (q : Q)
| PInf
| NInf
| NaN.

(** [x / y] on two integers. *)
Definition truediv (x y : Z) : float64 :=
  if y =? 0 then
    if x =? 0 then NaN else if 0 <? x then PInf else NInf
  else Fin (Qred (inject_Z x / inject_Z y)).

(** [a / b] on two series with the same labels. *)
Definition series_div (a b : list Z) : list float64 :=
  map (fun p => truediv (fst p) (snd p)) (combine a b).



Section GroupBy.

Variable R : Type.
Variable key_year : R -> Z.
Variable key_sex : R -> string.
Variable value : R -> Z.

Definition in_group (y : Z) (s : string) (r : R) : bool :=
  (key_year r =? y) && (key_sex r =? s)%string.

(** The sum of [value] over the group [(y, s)]. *)
Definition group_sum (t : list R) (y : Z) (s : string) : Z :=
  fold_right Z.add 0 (map value (filter (in_group y s) t)).

(** [t.groupby(['year', 'sex'])[value].transform('sum')]: to every row
    the sum over its own group. *)
Definition transform_sum (t : list R) : list Z :=
  map (fun r => group_sum t (key_year r) (key_sex r)) t.

End GroupBy.

(** [s.idxmax()], the label of the first largest value, after the first
    element [best]. *)
Fixpoint idxmax_from (best : nat * Z) (s : list (nat * Z)) : nat :=
  match s with
  | [] => fst best
  | p :: s' =>
      if snd best <? snd p then idxmax_from p s' else idxmax_from best s'
  end.

Definition idxmax (s : list (nat * Z)) : option nat :=
  match s with
  | [] => None
  | p :: s' => Some (idxmax_from p s')
  end.

(** [df.loc[label]]: the rows that carry the label. *)
Definition loc {A : Type} (df : list (nat * A)) (label : nat) : list A :=
  map snd (filter (fun ir => (fst ir =? label)%nat) df).

Definition series_min (s : list Z) : option Z :=
  match s with
  | [] => None
  | x :: s' => Some (fold_left Z.min s' x)
  end.

Definition series_max (s : list Z) : option Z :=
  match s with
  | [] => None
  | x :: s' => Some (fold_left Z.max s' x)
  end.

End Pd.

(** ** The program *)

Import ZipFile.

(** A row of the table that line 25 builds, cell by cell. *)
Record RawRow : Type := mkRaw {
  raw_name : option string;
  raw_sex : option string;
  raw_count : Pd.cell;
  raw_year : Z
}.

(** A row of a table whose [name] and [sex] columns hold text and whose
    [count] column is int64. *)
Record Row : Type := mkRow {
  name : string;
  sex : string;
  count : Z;
  year : Z
}.

(** Line 18: the members the loop goes through. *)
Definition files (z : archive) : list string :=
  filter (fun file => Py.endswith file ".txt") (namelist z).

(** Lines 21-22 give the three columns their names; line 23 adds the
    fourth. [y] is the year of the member the line comes from. *)
Definition raw_row (y : Z) (line : list string) : RawRow :=
  {| raw_name := Pd.text_cell (nth 0%nat line "");
     raw_sex := Pd.text_cell (nth 1%nat line "");
     raw_count := Pd.count_cell (nth 2%nat line "");
     raw_year := y |}.

(** Lines 20-23, the body of the loop for one member. *)
Definition read_member (z : archive) (file : string) : result (list RawRow) :=
  df <- Pd.read_csv (open z file) ;;
  df <- Pd.set_columns ["name"; "sex"; "count"] df ;;
  y <- Py.int (Py.slice 3 7 file) ;;
  Ok (map (raw_row y) df).

(** Lines 19-24: the loop, [dfs] growing at its end. *)
Fixpoint read_members (z : archive) (fs : list string)
  (dfs : list (list RawRow)) : result (list (list RawRow)) :=
  match fs with
  | [] => Ok dfs
  | file :: fs' =>
      df <- read_member z file ;;
      read_members z fs' (dfs ++ [df])
  end.

(** Lines 16-25, the Loader: the value of [data] at line 25. *)
Definition data (z : archive) : result (list RawRow) :=
  dfs <- read_members z (files z) [] ;;
  Pd.concat dfs.







(** The typed reading of a raw row, when there is one. *)
Definition typed_row (r : RawRow) : option Row :=
  match raw_name r, raw_sex r, raw_count r with
  | Some n, Some s, Pd.CInt c => Some (mkRow n s c (raw_year r))
  | _, _, _ => None
  end.

Fixpoint typed (t : list RawRow) : option (list Row) :=
  match t with
  | [] => Some []
  | r :: t' =>
      match typed_row r, typed t' with
      | Some r', Some t'' => Some (r' :: t'')
      | _, _ => None
      end
  end.

(** A row after line 28. *)
Record PctRow : Type := mkPct {
  base : Row;
  pct : Pd.float64
}.

(** Line 28, the Aggregator, on a typed table. *)
Definition add_pct (t : list Row) : list PctRow :=
  map (fun p => mkPct (fst p) (snd p))
    (combine t
       (Pd.series_div (map count t) (Pd.transform_sum year sex count t))).

(** Lines 11-29. [Ok None] stands for a table that is not typed (a missing
    cell, or a count that is no integer): pandas then computes on float64 or
    object columns, which is not followed here. *)
Definition load_name_data (z : archive) : result (option (list PctRow)) :=
  t <- data z ;;
  Ok (option_map add_pct (typed t)).

(** A row after lines 35-36. *)
Record DfRow : Type := mkDf {
  loaded : PctRow;
  total_births : Z;
  prop : Pd.float64
}.

Definition df_year (r : PctRow) : Z := year (base r).
Definition df_sex (r : PctRow) : string := sex (base r).
Definition df_count (r : PctRow) : Z := count (base r).

(** Line 35. *)
Definition add_total_births (t : list PctRow) : list (PctRow * Z) :=
  combine t (Pd.transform_sum df_year df_sex df_count t).

(** Line 36. *)
Definition add_prop (t : list (PctRow * Z)) : list DfRow :=
  map (fun p => mkDf (fst (fst p)) (snd (fst p)) (snd p))
    (combine t
       (Pd.series_div (map (fun r => df_count (fst r)) t) (map snd t))).

(** Lines 32-36: the enriched table [df], with the row labels it has
    from line 25. *)
Definition enrich (t : list PctRow) : list (nat * DfRow) :=
  Pd.range_index (add_prop (add_total_births t)).

Definition df (z : archive) : result (option (list (nat * DfRow))) :=
  t <- load_name_data z ;;
  Ok (option_map enrich t).

Definition row_year (r : DfRow) : Z := df_year (loaded r).
Definition row_name (r : DfRow) : string := name (base (loaded r)).
Definition row_count (r : DfRow) : Z := df_count (loaded r).
Definition row_sex (r : DfRow) : string := df_sex (loaded r).

(** [s.between(lo, hi)], both ends included. *)
Definition between (lo hi y : Z) : bool := (lo <=? y) && (y <=? hi).

(** Lines 64-65. *)
Definition filtered_data (df : list (nat * DfRow)) (year_range : Z * Z)
  (name_of_interest : string) : list (nat * DfRow) :=
  filter (fun ir =>
            between (fst year_range) (snd year_range) (row_year (snd ir))
            && (Py.lower (row_name (snd ir)) =? Py.lower name_of_interest)%string)
    df.

(** Line 105. [None] when [idxmax] has nothing to look at or [loc] does
    not give back one row. *)
Definition most_popular_year (filtered : list (nat * DfRow)) : option Z :=
  match Pd.idxmax (map (fun ir => (fst ir, row_count (snd ir))) filtered) with
  | Some label =>
      match Pd.loc filtered label with
      | [r] => Some (row_year r)
      | _ => None
      end
  | None => None
  end.

(** What tab 2 shows at lines 104-109. *)
Inductive summary : Type :=
| MostPopular (y : Z)
| NoDataWarning.

Definition tab2_summary (filtered : list (nat * DfRow)) : option summary :=
  match filtered with
  | [] => Some NoDataWarning
  | _ => option_map MostPopular (most_popular_year filtered)
  end.

(** Lines 58-59: the ends of the slider. *)
Definition year_min (df : list (nat * DfRow)) : option Z :=
  Pd.series_min (map (fun ir => row_year (snd ir)) df).

Definition year_max (df : list (nat * DfRow)) : option Z :=
  Pd.series_max (map (fun ir => row_year (snd ir)) df).

(** ** Vocabulary of the specification *)



Definition is_digit (c : ascii) : bool :=
  match Py.digit_value c with
  | Some _ => true
  | None => false
  end.

Fixpoint all_digits (s : string) : bool :=
  match s with
  | EmptyString => true
  | String c s' => is_digit c && all_digits s'
  end.

(** The record-file convention in the words of the specification: a fixed
    prefix, a 4-digit year, a fixed suffix. *)
Definition matches_convention (pre suf file : string) : bool :=
  let p := String.length pre in
  let s := String.length suf in
  (String.length file =? p + 4 + s)%nat
  && (substring 0 p file =? pre)%string
  && all_digits (substring p 4 file)
  && (substring (p + 4) s file =? suf)%string.

(** Line 18 on a member rather than on its name. *)
Definition is_txt (m : member) : bool := Py.endswith (fst m) ".txt".

(** ** Archives and tables used as examples *)

Definition two_years : archive :=
  [("yob1999.txt", [["Alice"; "F"; "100"]; ["Bob"; "M"; "50"]]);
   ("NationalReadMe.pdf", [["National data on the relative frequency"]]);
   ("yob2000.txt", [["Alice"; "F"; "80"]])].

Definition two_years_table : list RawRow :=
  [mkRaw (Some "Alice") (Some "F") (Pd.CInt 100) 1999;
   mkRaw (Some "Bob") (Some "M") (Pd.CInt 50) 1999;
   mkRaw (Some "Alice") (Some "F") (Pd.CInt 80) 2000].

Definition two_sexes : list Row :=
  [mkRow "Alice" "F" 60 1999; mkRow "Bob" "M" 50 1999;
   mkRow "Alice" "F" 40 1999].

Definition duplicates : archive :=
  [("yob1999.txt",
    [["Alice"; "F"; "60"]; ["Bob"; "M"; "50"]; ["Alice"; "F"; "40"]])].

(** ** More vocabulary of the specification: the filter *)



Definition alice_years : list Row :=
  [mkRow "Alice" "F" 60 1999; mkRow "Alice" "F" 80 2000;
   mkRow "Bob" "M" 50 1999; mkRow "alice" "F" 80 2001].

(** ** The charts of tab 1 *)

(** Lines 76 and 78: [filtered_data[filtered_data['sex'] == s]]. *)
Definition sex_rows (filtered : list (nat * DfRow)) (s : string)
  : list (nat * DfRow) :=
  filter (fun ir => (row_sex (snd ir) =? s)%string) filtered.

(** What a line is drawn from: x='year', y='prop'. *)
Definition line_points (rows : list (nat * DfRow)) : list (Z * Pd.float64) :=
  map (fun ir => (row_year (snd ir), prop (snd ir))) rows.

(** Lines 75-78: the lines of the first chart, each under its label. *)
Definition tab1_lines (filtered : list (nat * DfRow))
  (plot_female plot_male : bool) : list (string * list (Z * Pd.float64)) :=
  (if plot_female then [("Female", line_points (sex_rows filtered "F"))]
   else [])
  ++ (if plot_male then [("Male", line_points (sex_rows filtered "M"))]
      else []).

(** The order in which [groupby] lists its keys: by year, then by sex. *)
Definition key_lt (a b : Z * string) : bool :=
  (fst a <? fst b) || ((fst a =? fst b) && (snd a <? snd b)%string).

Definition key_eqb (a b : Z * string) : bool :=
  (fst a =? fst b) && (snd a =? snd b)%string.

(** One more key into the sorted keys seen so far. *)
Fixpoint insert_key (k : Z * string) (ks : list (Z * string))
  : list (Z * string) :=
  match ks with
  | [] => [k]
  | k' :: ks' =>
      if key_lt k k' then k :: ks
      else if key_eqb k k' then ks
      else k' :: insert_key k ks'
  end.

Definition row_key (ir : nat * DfRow) : Z * string :=
  (row_year (snd ir), row_sex (snd ir)).


(** The keys of [filtered.groupby(['year', 'sex'])]: each pair once, in
    order. *)
Definition group_keys (filtered : list (nat * DfRow)) : list (Z * string) :=
  fold_right insert_key [] (map row_key filtered).

(** Line 91: one row (year, sex, count) per group. *)
Definition gender_counts (filtered : list (nat * DfRow))
  : list (Z * string * Z) :=
  map (fun k =>
         (fst k, snd k,
          Pd.group_sum row_year row_sex row_count (map snd filtered)
            (fst k) (snd k)))
    (group_keys filtered).

(** Lines 90-98: the second chart, or the warning. *)
Inductive bar_chart : Type :=
| BarPlot (bars : list (Z * string * Z))
| NoDataToDisplay.

Definition tab1_bars (filtered : list (nat * DfRow)) : bar_chart :=
  match filtered with
  | [] => NoDataToDisplay
  | _ => BarPlot (gender_counts filtered)
  end.

(** ** Archives that load into a typed table *)




(** The number of lines of the ".txt" members, a name counted as often as
    it is listed. *)
Definition lines_read (z : archive) : nat :=
  list_sum (map (fun file => List.length (open z file)) (files z)).

Definition three_years : archive :=
  [("yob2001.txt", [["Cleo"; "F"; "7"]]);
   ("yob1999.txt", [["Alice"; "F"; "100"]; ["Bob"; "M"; "50"]]);
   ("yob2000.txt", [["Alice"; "F"; "80"]])].

(** * Properties *)

(** ** The results monad *)

Lemma bind_ok_inv (A B : Type) (m : result A) (k : A -> result B) (b : B) :
  bind m k = Ok b -> exists a, m = Ok a /\ k a = Ok b.
Proof.
  destruct m as [a|e]; simpl; intros H.
  - exists a; split; [reflexivity | exact H].
  - discriminate H.
Qed.

Lemma bind_raise (A B : Type) (m : result A) (k : A -> result B) (e : exception) :
  m = Raise e -> bind m k = Raise e.
Proof. intros ->; reflexivity. Qed.

Ltac bind_inv H :=
  let a := fresh "a" in
  let Ha := fresh "Ha" in
  apply bind_ok_inv in H; destruct H as (a & Ha & H).

(** ** The loop of the Loader *)

(** What the loop returns does not look at the frames it started with. *)
Lemma read_members_acc (z : archive) (fs : list string) :
  forall dfs,
    read_members z fs dfs =
    (more <- read_members z fs [] ;; Ok (dfs ++ more)).
Proof.
  induction fs as [|file fs IH]; intros dfs; simpl.
  - now rewrite app_nil_r.
  - destruct (read_member z file) as [df'|e]; simpl; [|reflexivity].
    rewrite (IH (dfs ++ [df'])), (IH [df']).
    destruct (read_members z fs []) as [more|e]; simpl; [|reflexivity].
    now rewrite <- app_assoc.
Qed.

(** The loop succeeds exactly when every member does, and then it holds
    one frame per member, in the order of the members. *)
Lemma read_members_ok (z : archive) (fs : list string) (dfs : list (list RawRow)) :
  read_members z fs [] = Ok dfs <->
  Forall2 (fun file df' => read_member z file = Ok df') fs dfs.
Proof.
  revert dfs; induction fs as [|file fs IH]; intros dfs; simpl.
  - split.
    + intros H; injection H as <-; constructor.
    + intros H; inversion H; reflexivity.
  - destruct (read_member z file) as [df'|e] eqn:E; simpl.
    + rewrite read_members_acc.
      destruct (read_members z fs []) as [more|e] eqn:E'; simpl; split; intros H.
      * injection H as <-. constructor; [exact E | now apply IH].
      * inversion H as [|? d ? more' Hd Hm]; subst.
        apply IH in Hm. congruence.
      * discriminate H.
      * inversion H as [|? d ? more' Hd Hm]; subst.
        apply IH in Hm. discriminate Hm.
    + split; intros H; [discriminate H|].
      inversion H; subst; congruence.
Qed.

(** One member that raises makes the loop raise. *)
Lemma read_members_raise (z : archive) (fs : list string) (file : string) (e : exception) :
  In file fs -> read_member z file = Raise e ->
  forall dfs, exists e', read_members z fs dfs = Raise e'.
Proof.
  induction fs as [|f fs IH]; intros Hin Hr dfs; [contradiction|].
  simpl. destruct (read_member z f) as [df'|e0] eqn:E; simpl.
  - destruct Hin as [->|Hin]; [congruence|]. now apply IH.
  - now exists e0.
Qed.

Lemma data_raise (z : archive) (file : string) (e : exception) :
  In file (files z) -> read_member z file = Raise e ->
  exists e', data z = Raise e'.
Proof.
  intros Hin Hr. unfold data.
  destruct (read_members_raise z (files z) file Hin Hr []) as [e' He'].
  exists e'. now rewrite He'.
Qed.

(** A table that the Loader returns is the frames of the members of
    [files], one after the other. *)
Lemma data_ok_inv (z : archive) (t : list RawRow) :
  data z = Ok t ->
  exists dfs,
    Forall2 (fun file df' => read_member z file = Ok df') (files z) dfs
    /\ t = List.concat dfs.
Proof.
  unfold data. intros H. bind_inv H.
  exists a. split; [now apply read_members_ok|].
  destruct a; simpl in H; [discriminate H | now injection H as <-].
Qed.

(** A member that reads well has a first line of three fields and a name
    with a year that [int] accepts; it gives one row per line. *)
Lemma read_member_ok_inv (z : archive) (file : string) (df' : list RawRow) :
  read_member z file = Ok df' ->
  exists y,
    Py.int (Py.slice 3 7 file) = Ok y
    /\ List.length (hd [] (open z file)) = 3%nat
    /\ Forall (fun line => (List.length line <= 3)%nat) (open z file)
    /\ df' = map (raw_row y) (map (Pd.pad 3) (open z file)).
Proof.
  unfold read_member, Pd.read_csv, Pd.set_columns. intros H.
  destruct (open z file) as [|first rest] eqn:E; [discriminate H|].
  destruct (existsb _ rest) eqn:Ex; [discriminate H|].
  cbn [bind fst snd] in H.
  destruct (Nat.eqb_spec (List.length first) (List.length ["name"; "sex"; "count"]))
    as [Hw|Hw]; [|discriminate H].
  cbn [bind] in H. destruct (Py.int (Py.slice 3 7 file)) as [y|e]; [|discriminate H].
  cbn [bind] in H. injection H as <-.
  simpl in Hw. exists y. rewrite Hw. repeat split; try reflexivity.
  - exact Hw.
  - constructor; [lia|].
    apply Forall_forall. intros line Hl.
    destruct (Nat.ltb_spec (List.length first) (List.length line)) as [Hlt|Hge]; [|lia].
    exfalso. assert (existsb (fun line => (List.length first <? List.length line)%nat) rest = true).
    { apply existsb_exists. exists line. split; [exact Hl|]. now apply Nat.ltb_lt. }
    congruence.
Qed.

(** Padding a line changes no cell: a missing field reads as the empty one. *)
Lemma raw_row_pad (y : Z) (w : nat) (line : list string) :
  raw_row y (Pd.pad w line) = raw_row y line.
Proof.
  unfold raw_row, Pd.pad.
  assert (Hn : forall n, nth n (line ++ repeat "" (w - List.length line)) "" = nth n line "").
  { intros n. destruct (Nat.lt_ge_cases n (List.length line)) as [Hlt|Hge].
    - now rewrite app_nth1.
    - rewrite app_nth2 by exact Hge. rewrite (nth_overflow line) by exact Hge.
      generalize (n - List.length line)%nat as k.
      generalize (w - List.length line)%nat as m.
      induction m as [|m IH]; intros [|k]; simpl; auto. }
  now rewrite !Hn.
Qed.

(** ** The Loader as a machine: one outcome per archive *)










(** ** Which members the Loader reads *)

Lemma find_filter (A : Type) (f keep : A -> bool) (l : list A) :
  (forall a, f a = true -> keep a = true) ->
  find f (filter keep l) = find f l.
Proof.
  intros Hk. induction l as [|a l IH]; simpl; [reflexivity|].
  destruct (keep a) eqn:Ka; simpl.
  - now rewrite IH.
  - destruct (f a) eqn:Fa; [|exact IH].
    apply Hk in Fa. congruence.
Qed.

Lemma filter_rev (A : Type) (f : A -> bool) (l : list A) :
  filter f (rev l) = rev (filter f l).
Proof.
  induction l as [|a l IH]; simpl; [reflexivity|].
  rewrite filter_app, IH. simpl. destruct (f a); simpl; [reflexivity|].
  now rewrite app_nil_r.
Qed.

(** Dropping the other members changes nothing for a name in ".txt". *)
Lemma open_txt_only (z : archive) (file : string) :
  Py.endswith file ".txt" = true ->
  open (filter is_txt z) file = open z file.
Proof.
  intros Ht. unfold open. rewrite <- filter_rev, find_filter; [reflexivity|].
  intros m Hm. apply String.eqb_eq in Hm. unfold is_txt. now rewrite Hm.
Qed.

Lemma files_txt_only (z : archive) : files (filter is_txt z) = files z.
Proof.
  unfold files, namelist. induction z as [|m z IH]; simpl; [reflexivity|].
  unfold is_txt at 1. destruct (Py.endswith (fst m) ".txt") eqn:E; simpl.
  - now rewrite E, IH.
  - exact IH.
Qed.

Lemma files_are_txt (z : archive) (file : string) :
  In file (files z) -> Py.endswith file ".txt" = true.
Proof. unfold files. intros H. now apply filter_In in H. Qed.

Lemma read_members_txt_only (z : archive) (fs : list string) :
  Forall (fun file => Py.endswith file ".txt" = true) fs ->
  forall dfs, read_members (filter is_txt z) fs dfs = read_members z fs dfs.
Proof.
  induction 1 as [|file fs Hf _ IH]; intros dfs; simpl; [reflexivity|].
  unfold read_member at 1 2. rewrite (open_txt_only z file Hf).
  fold (read_member z file).
  destruct (read_member z file); simpl; [apply IH | reflexivity].
Qed.

Lemma data_txt_only (z : archive) : data (filter is_txt z) = data z.
Proof.
  unfold data. rewrite files_txt_only, read_members_txt_only; [reflexivity|].
  apply Forall_forall. apply files_are_txt.
Qed.

Lemma convention_is_txt (file : string) :
  matches_convention "yob" ".txt" file = true ->
  Py.endswith file ".txt" = true.
Proof.
  unfold matches_convention, Py.endswith. intros H.
  apply andb_true_iff in H; destruct H as [H Hsuf].
  apply andb_true_iff in H; destruct H as [H _].
  apply andb_true_iff in H; destruct H as [Hlen _].
  apply Nat.eqb_eq in Hlen. rewrite Hlen. exact Hsuf.
Qed.

(** C2. The Loader reads the members whose names end in ".txt", all of
    them and no other, in the order of the archive: members with another
    ending have no effect on the outcome, a returned table is the frames of
    the ".txt" members one after the other, and a name of the form
    yob<4 digits>.txt is such a member. *)
Theorem loader_reads_txt_members :
  (forall z, data z = data (filter (fun m => Py.endswith (fst m) ".txt") z))
  /\ (forall z t,
        data z = Ok t ->
        exists dfs,
          Forall2 (fun file df' => read_member z file = Ok df')
            (filter (fun file => Py.endswith file ".txt") (namelist z)) dfs
          /\ t = List.concat dfs)
  /\ (forall file,
        matches_convention "yob" ".txt" file = true ->
        Py.endswith file ".txt" = true).
Proof.
  split; [|split].
  - intros z. symmetry. apply data_txt_only.
  - intros z t. apply data_ok_inv.
  - apply convention_is_txt.
Qed.

Lemma loader_reads_txt_members_witness :
  data two_years
  = data (filter (fun m => Py.endswith (fst m) ".txt") two_years)
  /\ (exists dfs,
        Forall2 (fun file df' => read_member two_years file = Ok df')
          (filter (fun file => Py.endswith file ".txt") (namelist two_years))
          dfs
        /\ two_years_table = List.concat dfs)
  /\ Py.endswith "yob1999.txt" ".txt" = true.
Proof.
  destruct loader_reads_txt_members as (H1 & H2 & H3).
  split; [apply H1|].
  split; [apply H2; reflexivity | apply H3; reflexivity].
Defined.

(** C2, as the specification states it, fails: the two members below are
    both read into the table, and no prefix and suffix make both names
    follow one convention. *)
Lemma loader_reads_any_prefix :
  data [("abc1999.txt", [["Alice"; "F"; "100"]]);
        ("xyz2000.txt", [["Bob"; "M"; "50"]])]
  = Ok [mkRaw (Some "Alice") (Some "F") (Pd.CInt 100) 1999;
        mkRaw (Some "Bob") (Some "M") (Pd.CInt 50) 2000]
  /\ forall pre suf,
       matches_convention pre suf "abc1999.txt"
       && matches_convention pre suf "xyz2000.txt" = false.
Proof.
  split; [reflexivity|].
  intros pre suf. apply not_true_is_false. intros H.
  apply andb_true_iff in H; destruct H as [H1 H2].
  unfold matches_convention in H1, H2.
  repeat match goal with
         | H : _ && _ = true |- _ => apply andb_true_iff in H; destruct H
         end.
  destruct pre as [|c pre].
  - simpl in *. discriminate.
  - repeat match goal with
           | H : (_ =? _)%string = true |- _ => apply String.eqb_eq in H
           end.
    simpl in *. congruence.
Qed.

(** ** The shape of the lines *)

(** A member with a bad first line, or with a line of more than three
    fields, does not read. *)
Lemma read_member_bad_shape (z : archive) (file : string) :
  List.length (hd [] (open z file)) <> 3%nat
  \/ Exists (fun line => (3 < List.length line)%nat) (open z file) ->
  exists e, read_member z file = Raise e.
Proof.
  intros Hbad. destruct (read_member z file) as [df'|e] eqn:E; [|now exists e].
  exfalso. apply read_member_ok_inv in E.
  destruct E as (y & _ & Hw & Hall & _).
  destruct Hbad as [Hbad|Hbad]; [contradiction|].
  apply Exists_exists in Hbad. destruct Hbad as (line & Hin & Hlen).
  rewrite Forall_forall in Hall. specialize (Hall line Hin). lia.
Qed.

(** A member whose lines all have three fields reads, when its name
    carries a year, into one row per line. *)
Lemma read_member_three_fields (z : archive) (file : string) (y : Z) :
  open z file <> [] ->
  Forall (fun line => List.length line = 3%nat) (open z file) ->
  Py.int (Py.slice 3 7 file) = Ok y ->
  read_member z file = Ok (map (raw_row y) (open z file)).
Proof.
  intros Hne Hall Hy. unfold read_member, Pd.read_csv.
  destruct (open z file) as [|first rest]; [contradiction|].
  inversion Hall as [|? ? Hfirst Hrest]; subst.
  rewrite Hfirst.
  assert (Ex : existsb (fun line => (3 <? List.length line)%nat) rest = false).
  { apply not_true_is_false. intros Ex. apply existsb_exists in Ex.
    destruct Ex as (line & Hin & Hlt). apply Nat.ltb_lt in Hlt.
    rewrite Forall_forall in Hrest. specialize (Hrest line Hin). lia. }
  rewrite Ex. cbn [bind Pd.set_columns fst snd List.length Nat.eqb].
  rewrite Hy. cbn [bind]. f_equal.
  rewrite map_map. apply map_ext. intros line. apply raw_row_pad.
Qed.

(** C3. For a member that the Loader reads: when its first line does not
    have exactly three fields, or one of its lines has more than three, the
    Loader raises; when all its lines have exactly three fields and its
    name carries a year, the member reads into one row per line, in order,
    whose cells are those of the three fields. *)
Theorem loader_line_shape :
  (forall z file,
      In file (files z) ->
      List.length (hd [] (open z file)) <> 3%nat
      \/ Exists (fun line => (3 < List.length line)%nat) (open z file) ->
      exists e, data z = Raise e)
  /\ (forall z file y,
        open z file <> [] ->
        Forall (fun line => List.length line = 3%nat) (open z file) ->
        Py.int (Py.slice 3 7 file) = Ok y ->
        read_member z file = Ok (map (raw_row y) (open z file)))
  /\ (forall y n s c,
        raw_row y [n; s; c]
        = mkRaw (Pd.text_cell n) (Pd.text_cell s) (Pd.count_cell c) y).
Proof.
  split; [|split].
  - intros z file Hin Hbad.
    destruct (read_member_bad_shape z file Hbad) as [e He].
    exact (data_raise z file Hin He).
  - apply read_member_three_fields.
  - reflexivity.
Qed.

Lemma loader_line_shape_witness :
  (exists e,
      data [("yob1999.txt", [["Alice"; "F"; "1"]; ["Bob"; "M"; "2"; "x"]])]
      = Raise e)
  /\ read_member two_years "yob2000.txt"
     = Ok (map (raw_row 2000) (open two_years "yob2000.txt")).
Proof.
  destruct loader_line_shape as (H1 & H2 & _). split.
  - apply (H1 _ "yob1999.txt"); [vm_compute; now left|].
    right. apply Exists_exists. exists ["Bob"; "M"; "2"; "x"].
    split; [vm_compute; right; left; reflexivity | simpl; lia].
  - apply H2.
    + vm_compute. discriminate.
    + vm_compute. repeat constructor.
    + reflexivity.
Defined.

(** C3, as the specification states it, fails: a negative count and a line
    of two fields both go through. *)
Lemma loader_keeps_negative_count_and_short_line :
  data [("yob1999.txt", [["Alice"; "F"; "-5"]; ["Bob"; "M"]])]
  = Ok [mkRaw (Some "Alice") (Some "F") (Pd.CInt (-5)) 1999;
        mkRaw (Some "Bob") (Some "M") Pd.CNaN 1999].
Proof. reflexivity. Qed.

(** ** The year in the name *)










(** ** The Aggregator *)

Lemma combine_map_map (A B C : Type) (f : A -> B) (g : A -> C) (l : list A) :
  combine (map f l) (map g l) = map (fun a => (f a, g a)) l.
Proof. induction l as [|a l IH]; simpl; [reflexivity | now rewrite IH]. Qed.

Lemma combine_map_r (A B : Type) (g : A -> B) (l : list A) :
  combine l (map g l) = map (fun a => (a, g a)) l.
Proof.
  rewrite <- (map_id l) at 1. apply combine_map_map.
Qed.

Lemma series_div_map (A : Type) (f g : A -> Z) (l : list A) :
  Pd.series_div (map f l) (map g l)
  = map (fun a => Pd.truediv (f a) (g a)) l.
Proof.
  unfold Pd.series_div. now rewrite combine_map_map, map_map.
Qed.

(** Line 28, row by row. *)
Lemma add_pct_rows (t : list Row) :
  add_pct t
  = map (fun r =>
           mkPct r (Pd.truediv (count r)
                      (Pd.group_sum year sex count t (year r) (sex r)))) t.
Proof.
  unfold add_pct, Pd.transform_sum.
  now rewrite series_div_map, combine_map_r, map_map.
Qed.

(** Lines 35-36, row by row. *)
Lemma enrich_rows (t : list PctRow) :
  add_prop (add_total_births t)
  = map (fun r =>
           let total := Pd.group_sum df_year df_sex df_count t
                          (df_year r) (df_sex r) in
           mkDf r total (Pd.truediv (df_count r) total)) t.
Proof.
  unfold add_prop, add_total_births, Pd.transform_sum.
  rewrite combine_map_r, !map_map. cbn [fst snd].
  now rewrite series_div_map, combine_map_map, map_map.
Qed.

(** The groups of the table are those of the table before line 28. *)
Lemma filter_group_add_pct (t : list Row) (y : Z) (s : string) :
  filter (Pd.in_group df_year df_sex y s) (add_pct t)
  = map (fun r =>
           mkPct r (Pd.truediv (count r)
                      (Pd.group_sum year sex count t (year r) (sex r))))
      (filter (Pd.in_group year sex y s) t).
Proof.
  rewrite add_pct_rows, filter_map_swap. reflexivity.
Qed.

Lemma group_sum_add_pct (t : list Row) (y : Z) (s : string) :
  Pd.group_sum df_year df_sex df_count (add_pct t) y s
  = Pd.group_sum year sex count t y s.
Proof.
  unfold Pd.group_sum at 1. rewrite filter_group_add_pct, map_map. reflexivity.
Qed.

Lemma in_group_keys (R : Type) (ky : R -> Z) (ks : R -> string)
  (y : Z) (s : string) (r : R) :
  Pd.in_group ky ks y s r = true <-> ky r = y /\ ks r = s.
Proof.
  unfold Pd.in_group. rewrite andb_true_iff, Z.eqb_eq, String.eqb_eq.
  reflexivity.
Qed.













Lemma range_index_rows (A : Type) (l : list A) (start : nat) :
  map snd (combine (seq start (List.length l)) l) = l.
Proof.
  revert start. induction l as [|a l IH]; intros start; simpl;
    [reflexivity | now rewrite IH].
Qed.

(** The groups of the enriched table are those of the loaded table. *)
Lemma filter_group_enrich (t : list PctRow) (y : Z) (s : string) :
  filter (Pd.in_group row_year row_sex y s) (map snd (enrich t))
  = map (fun r =>
           let total := Pd.group_sum df_year df_sex df_count t
                          (df_year r) (df_sex r) in
           mkDf r total (Pd.truediv (df_count r) total))
      (filter (Pd.in_group df_year df_sex y s) t).
Proof.
  unfold enrich, Pd.range_index.
  rewrite range_index_rows, enrich_rows, filter_map_swap. reflexivity.
Qed.

(** C6. When the F rows of a year are Alice,F,60 and Alice,F,40, the
    group total is 100 and the F rows of that year, after line 28 and in
    the enriched table, are these two rows, in this order, with the
    proportions 3/5 and 2/5. *)
Theorem duplicate_rows_are_additive (t : list Row) (y : Z) :
  filter (Pd.in_group year sex y "F") t
  = [mkRow "Alice" "F" 60 y; mkRow "Alice" "F" 40 y] ->
  Pd.group_sum year sex count t y "F" = 100
  /\ filter (Pd.in_group df_year df_sex y "F") (add_pct t)
     = [mkPct (mkRow "Alice" "F" 60 y) (Pd.Fin (3 # 5));
        mkPct (mkRow "Alice" "F" 40 y) (Pd.Fin (2 # 5))]
  /\ filter (Pd.in_group row_year row_sex y "F") (map snd (enrich (add_pct t)))
     = [mkDf (mkPct (mkRow "Alice" "F" 60 y) (Pd.Fin (3 # 5)))
          100 (Pd.Fin (3 # 5));
        mkDf (mkPct (mkRow "Alice" "F" 40 y) (Pd.Fin (2 # 5)))
          100 (Pd.Fin (2 # 5))].
Proof.
  intros Hg.
  assert (Hsum : Pd.group_sum year sex count t y "F" = 100).
  { unfold Pd.group_sum. rewrite Hg. reflexivity. }
  assert (Hpct : filter (Pd.in_group df_year df_sex y "F") (add_pct t)
                 = [mkPct (mkRow "Alice" "F" 60 y) (Pd.Fin (3 # 5));
                    mkPct (mkRow "Alice" "F" 40 y) (Pd.Fin (2 # 5))]).
  { rewrite filter_group_add_pct, Hg. cbn [map year sex count].
    rewrite Hsum. reflexivity. }
  split; [exact Hsum|]. split; [exact Hpct|].
  rewrite filter_group_enrich, Hpct.
  cbn [map df_year df_sex df_count base year sex count].
  rewrite group_sum_add_pct, Hsum. reflexivity.
Qed.

Lemma duplicate_rows_are_additive_witness :
  load_name_data duplicates = Ok (Some (add_pct two_sexes))
  /\ Pd.group_sum year sex count two_sexes 1999 "F" = 100
  /\ filter (Pd.in_group df_year df_sex 1999 "F") (add_pct two_sexes)
     = [mkPct (mkRow "Alice" "F" 60 1999) (Pd.Fin (3 # 5));
        mkPct (mkRow "Alice" "F" 40 1999) (Pd.Fin (2 # 5))]
  /\ filter (Pd.in_group row_year row_sex 1999 "F")
       (map snd (enrich (add_pct two_sexes)))
     = [mkDf (mkPct (mkRow "Alice" "F" 60 1999) (Pd.Fin (3 # 5)))
          100 (Pd.Fin (3 # 5));
        mkDf (mkPct (mkRow "Alice" "F" 40 1999) (Pd.Fin (2 # 5)))
          100 (Pd.Fin (2 # 5))].
Proof.
  split; [reflexivity|].
  apply (@duplicate_rows_are_additive two_sexes 1999). reflexivity.
Defined.

(** ** Lines 35-36 against line 28 *)

(** C10. In every row of the enriched table [prop] is equal to [pct], and
    [total_births] is the total of the row's group. *)
Theorem prop_equals_pct (t : list Row) (n : nat) (r : DfRow) :
  In (n, r) (enrich (add_pct t)) ->
  prop r = pct (loaded r)
  /\ total_births r
     = Pd.group_sum year sex count t (row_year r) (row_sex r).
Proof.
  unfold enrich, Pd.range_index. intros Hin. apply in_combine_r in Hin.
  rewrite enrich_rows in Hin. apply in_map_iff in Hin.
  destruct Hin as (p & <- & Hp). cbn [prop loaded total_births row_year row_sex].
  rewrite group_sum_add_pct.
  rewrite add_pct_rows in Hp. apply in_map_iff in Hp.
  destruct Hp as (r0 & <- & _). split; reflexivity.
Qed.

Lemma prop_equals_pct_witness :
  In (0%nat, mkDf (mkPct (mkRow "Alice" "F" 60 1999) (Pd.Fin (3 # 5)))
               100 (Pd.Fin (3 # 5)))
    (enrich (add_pct two_sexes))
  /\ Pd.Fin (3 # 5) = Pd.Fin (3 # 5)
  /\ 100 = Pd.group_sum year sex count two_sexes 1999 "F".
Proof.
  assert (Hin : In (0%nat, mkDf (mkPct (mkRow "Alice" "F" 60 1999)
                                   (Pd.Fin (3 # 5))) 100 (Pd.Fin (3 # 5)))
                  (enrich (add_pct two_sexes))) by (vm_compute; now left).
  split; [exact Hin|].
  exact (@prop_equals_pct two_sexes _ _ Hin).
Defined.

(** ** The filter *)

Lemma filter_none (A : Type) (f : A -> bool) (l : list A) :
  (forall a, In a l -> f a = false) -> filter f l = [].
Proof.
  induction l as [|a l IH]; intros H; simpl; [reflexivity|].
  rewrite (H a (or_introl eq_refl)). apply IH.
  intros b Hb. apply H. now right.
Qed.

Lemma fold_min_le (l : list Z) (x : Z) :
  fold_left Z.min l x <= x /\ forall y, In y l -> fold_left Z.min l x <= y.
Proof.
  revert x. induction l as [|a l IH]; intros x; simpl.
  - split; [lia | contradiction].
  - destruct (IH (Z.min x a)) as [H1 H2]. split; [lia|].
    intros y [<-|Hy]; [lia | now apply H2].
Qed.

Lemma fold_max_ge (l : list Z) (x : Z) :
  x <= fold_left Z.max l x /\ forall y, In y l -> y <= fold_left Z.max l x.
Proof.
  revert x. induction l as [|a l IH]; intros x; simpl.
  - split; [lia | contradiction].
  - destruct (IH (Z.max x a)) as [H1 H2]. split; [lia|].
    intros y [<-|Hy]; [lia | now apply H2].
Qed.

Lemma series_min_le (s : list Z) (lo y : Z) :
  Pd.series_min s = Some lo -> In y s -> lo <= y.
Proof.
  destruct s as [|x s]; [discriminate|]. simpl. intros E; injection E as <-.
  destruct (fold_min_le s x) as [H1 H2]. intros [<-|Hy]; [exact H1 | now apply H2].
Qed.

Lemma series_max_ge (s : list Z) (hi y : Z) :
  Pd.series_max s = Some hi -> In y s -> y <= hi.
Proof.
  destruct s as [|x s]; [discriminate|]. simpl. intros E; injection E as <-.
  destruct (fold_max_ge s x) as [H1 H2]. intros [<-|Hy]; [exact H1 | now apply H2].
Qed.



(** ** The most popular year *)

Lemma range_index_labels (A : Type) (l : list A) (start : nat) :
  map fst (combine (seq start (List.length l)) l) = seq start (List.length l).
Proof.
  revert start. induction l as [|a l IH]; intros start; simpl;
    [reflexivity | now rewrite IH].
Qed.

Lemma enrich_labels_nodup (t : list PctRow) : NoDup (map fst (enrich t)).
Proof.
  unfold enrich, Pd.range_index. rewrite range_index_labels. apply seq_NoDup.
Qed.

Lemma filter_labels_nodup (A : Type) (f : nat * A -> bool) (l : list (nat * A)) :
  NoDup (map fst l) -> NoDup (map fst (filter f l)).
Proof.
  induction l as [|p l IH]; simpl; intros H; [constructor|].
  inversion H as [|? ? Hn Hl]; subst.
  destruct (f p); simpl; [|now apply IH].
  constructor; [|now apply IH].
  intros Hin. apply Hn. apply in_map_iff in Hin.
  destruct Hin as (p' & E & Hp'). apply filter_In in Hp'.
  apply in_map_iff. exists p'. split; [exact E | apply Hp'].
Qed.

(** [idxmax] gives the label of an element no other element exceeds. *)
Lemma idxmax_from_spec (s : list (nat * Z)) :
  forall best,
  exists p,
    In p (best :: s) /\ Pd.idxmax_from best s = fst p
    /\ forall p', In p' (best :: s) -> snd p' <= snd p.
Proof.
  induction s as [|x s IH]; intros best; simpl.
  - exists best. split; [now left|]. split; [reflexivity|].
    intros p' [<-|[]]. lia.
  - destruct (Z.ltb_spec (snd best) (snd x)) as [Hlt|Hge].
    + destruct (IH x) as (p & Hin & Hl & Hmax).
      exists p. split; [now right|]. split; [exact Hl|].
      intros p' [<-|Hp'].
      * specialize (Hmax x (or_introl eq_refl)). lia.
      * now apply Hmax.
    + destruct (IH best) as (p & Hin & Hl & Hmax).
      exists p. split.
      { destruct Hin as [<-|Hin]; [now left | now right; right]. }
      split; [exact Hl|].
      intros p' [<-|[<-|Hp']].
      * apply Hmax. now left.
      * specialize (Hmax best (or_introl eq_refl)). lia.
      * apply Hmax. now right.
Qed.

(** With labels that do not repeat, [loc] gives back the one row. *)
Lemma loc_unique (A : Type) (l : list (nat * A)) (n : nat) (r : A) :
  NoDup (map fst l) -> In (n, r) l -> Pd.loc l n = [r].
Proof.
  unfold Pd.loc. induction l as [|p l IH]; simpl; intros Hnd Hin; [contradiction|].
  inversion Hnd as [|? ? Hn Hl]; subst.
  destruct Hin as [->|Hin]; simpl.
  - rewrite Nat.eqb_refl. simpl. f_equal.
    rewrite filter_none; [reflexivity|].
    intros q Hq. apply Nat.eqb_neq. intros E. apply Hn.
    simpl. rewrite <- E. now apply in_map.
  - destruct (Nat.eqb_spec (fst p) n) as [E|_]; [|now apply IH].
    exfalso. apply Hn. rewrite E.
    change n with (fst (n, r)). now apply in_map.
Qed.

(** C9. When the filter returns rows, the most popular year is the year
    of one of these rows, whose count no row of the filtered data exceeds;
    that row has the name asked for, compared in lower case, and a year
    within the range, both ends included. *)
Theorem most_popular_year_is_max (t : list PctRow) (year_range : Z * Z)
  (name_of_interest : string) :
  filtered_data (enrich t) year_range name_of_interest <> [] ->
  exists n r,
    In (n, r) (filtered_data (enrich t) year_range name_of_interest)
    /\ most_popular_year (filtered_data (enrich t) year_range name_of_interest)
       = Some (row_year r)
    /\ (forall ir,
          In ir (filtered_data (enrich t) year_range name_of_interest) ->
          row_count (snd ir) <= row_count r)
    /\ fst year_range <= row_year r <= snd year_range
    /\ Py.lower (row_name r) = Py.lower name_of_interest.
Proof.
  set (fd := filtered_data (enrich t) year_range name_of_interest).
  intros Hne.
  assert (Hnd : NoDup (map fst fd)).
  { apply filter_labels_nodup, enrich_labels_nodup. }
  unfold most_popular_year.
  destruct fd as [|p fd'] eqn:Efd; [contradiction|].
  cbn [map Pd.idxmax].
  destruct (idxmax_from_spec
              (map (fun ir => (fst ir, row_count (snd ir))) fd')
              (fst p, row_count (snd p)))
    as (best & Hin & Hl & Hmax).
  change ((fst p, row_count (snd p))
          :: map (fun ir => (fst ir, row_count (snd ir))) fd')
    with (map (fun ir => (fst ir, row_count (snd ir))) (p :: fd')) in Hin, Hmax.
  apply in_map_iff in Hin. destruct Hin as ([n r] & <- & Hin).
  cbn [fst snd] in Hl, Hmax.
  exists n, r. split; [exact Hin|].
  rewrite Hl, (@loc_unique _ (p :: fd') n r Hnd Hin).
  split; [reflexivity|]. split.
  - intros ir Hir.
    apply (Hmax (fst ir, row_count (snd ir))).
    apply in_map_iff. now exists ir.
  - assert (Hf : In (n, r) (filtered_data (enrich t) year_range name_of_interest)).
    { fold fd. rewrite Efd. exact Hin. }
    apply filter_In in Hf. destruct Hf as [_ Hf]. cbn [snd] in Hf.
    apply andb_true_iff in Hf. destruct Hf as [Hb Hn].
    apply String.eqb_eq in Hn. split; [|exact Hn].
    unfold between in Hb. apply andb_true_iff in Hb.
    destruct Hb as [L U]. apply Z.leb_le in L, U. lia.
Qed.

Lemma most_popular_year_is_max_witness :
  filtered_data (enrich (add_pct alice_years)) (1990, 2010) "ALICE" <> []
  /\ exists n r,
       In (n, r) (filtered_data (enrich (add_pct alice_years)) (1990, 2010) "ALICE")
       /\ most_popular_year
            (filtered_data (enrich (add_pct alice_years)) (1990, 2010) "ALICE")
          = Some (row_year r)
       /\ (forall ir,
             In ir (filtered_data (enrich (add_pct alice_years)) (1990, 2010) "ALICE") ->
             row_count (snd ir) <= row_count r)
       /\ fst (1990, 2010) <= row_year r <= snd (1990, 2010)
       /\ Py.lower (row_name r) = Py.lower "ALICE".
Proof.
  assert (H : filtered_data (enrich (add_pct alice_years)) (1990, 2010) "ALICE"
              <> []) by (vm_compute; discriminate).
  split; [exact H|].
  exact (@most_popular_year_is_max (add_pct alice_years) (1990, 2010) "ALICE" H).
Defined.

(** ** The scenarios of the specification, run *)

(** One F row and one M row in a year: each has the proportion 1. *)
Example scenario_one_row_per_sex :
  load_name_data [("yob1999.txt", [["Alice"; "F"; "100"]; ["Bob"; "M"; "50"]])]
  = Ok (Some [mkPct (mkRow "Alice" "F" 100 1999) (Pd.Fin 1);
              mkPct (mkRow "Bob" "M" 50 1999) (Pd.Fin 1)]).
Proof. reflexivity. Qed.

(** Of two rows with the largest count the first one gives the year. *)
Example scenario_first_of_equal_counts :
  most_popular_year
    (filtered_data (enrich (add_pct alice_years)) (1990, 2010) "ALICE")
  = Some 2000.
Proof. reflexivity. Qed.

(** The name asked for is compared in lower case: a spelling that no row
    has can still select rows. *)
Example scenario_other_spelling :
  map (fun ir => fst ir)
    (filtered_data (enrich (add_pct alice_years)) (1990, 2010) "ALICE")
  = [0%nat; 1%nat; 3%nat].
Proof. reflexivity. Qed.

(** A member with a name too short for a year, and a name whose year is
    not a number: the Loader raises [ValueError]. *)
Example scenario_bad_names :
  data [("yob.txt", [["Alice"; "F"; "1"]])] = Raise ValueError
  /\ data [("yobABCD.txt", [["Alice"; "F"; "1"]])] = Raise ValueError.
Proof. split; reflexivity. Qed.

(** An archive without any ".txt" member: line 25 raises. *)
Example scenario_no_txt_member :
  data [("NationalReadMe.pdf", [["National data"]])] = Raise ValueError.
Proof. reflexivity. Qed.

(** A first line of four fields, and a later line of four fields. *)
Example scenario_long_lines :
  data [("yob1999.txt", [["Alice"; "F"; "1"; "x"]])] = Raise ValueError
  /\ data [("yob1999.txt", [["Alice"; "F"; "1"]; ["Bob"; "M"; "2"; "x"]])]
     = Raise ParserError.
Proof. split; reflexivity. Qed.

(** * Further properties of the code *)

(** ** The size of the table *)

Lemma read_member_rows (z : archive) (file : string) (df' : list RawRow) :
  read_member z file = Ok df' ->
  List.length df' = List.length (open z file) /\ df' <> [].
Proof.
  intros H. apply read_member_ok_inv in H.
  destruct H as (y & _ & Hw & _ & ->). rewrite !length_map. split; [reflexivity|].
  destruct (open z file); [discriminate Hw | discriminate].
Qed.

Lemma length_concat_frames (z : archive) (fs : list string)
  (dfs : list (list RawRow)) :
  Forall2 (fun file df' => read_member z file = Ok df') fs dfs ->
  List.length (List.concat dfs)
  = list_sum (map (fun file => List.length (open z file)) fs).
Proof.
  induction 1 as [|file df' fs dfs Hm _ IH]; simpl; [reflexivity|].
  rewrite length_app, IH. now destruct (read_member_rows z file Hm) as [-> _].
Qed.

(** X1. The Loader never returns an empty table: without a ".txt" member line
    25 raises [ValueError], and a returned table has one row for each line
    of each ".txt" member, which is at least one row. *)
Theorem loaded_table_size (z : archive) :
  (files z = [] -> data z = Raise ValueError)
  /\ (forall t,
        data z = Ok t ->
        files z <> [] /\ t <> [] /\ List.length t = lines_read z).
Proof.
  split.
  - unfold data. intros ->. reflexivity.
  - intros t H.
    assert (Hne : files z <> []).
    { intros E. unfold data in H. rewrite E in H. discriminate H. }
    apply data_ok_inv in H. destruct H as (dfs & HF & ->).
    split; [exact Hne|]. split.
    + destruct HF as [|file df' fs dfs Hm _]; [contradiction|].
      destruct (read_member_rows z file Hm) as [_ Hd].
      simpl. destruct df'; [contradiction | discriminate].
    + apply length_concat_frames, HF.
Qed.

Lemma loaded_table_size_witness :
  (files [("NationalReadMe.pdf", [["National data"]])] = [] ->
   data [("NationalReadMe.pdf", [["National data"]])] = Raise ValueError)
  /\ files two_years <> [] /\ two_years_table <> []
  /\ List.length two_years_table = lines_read two_years.
Proof.
  split.
  - apply (proj1 (loaded_table_size [("NationalReadMe.pdf", [["National data"]])])).
  - apply (proj2 (loaded_table_size two_years)). reflexivity.
Defined.

(** ** Which exception the Loader raises *)

(** X2. The first member, in the order of the archive, that does not read
    decides the exception: the members after it are not looked at. *)
Theorem first_failure_decides (z : archive) (before after : list string)
  (file : string) (e : exception) :
  files z = before ++ file :: after ->
  Forall (fun f => exists df', read_member z f = Ok df') before ->
  read_member z file = Raise e ->
  data z = Raise e.
Proof.
  intros Hfs Hb He. unfold data. rewrite Hfs. clear Hfs.
  assert (G : forall dfs,
             read_members z (before ++ file :: after) dfs = Raise e).
  { induction Hb as [|f before [df' Hf] _ IH]; intros dfs; simpl.
    - now rewrite He.
    - rewrite Hf. simpl. apply IH. }
  now rewrite G.
Qed.

Lemma first_failure_decides_witness :
  data [("yob1999.txt", [["Alice"; "F"; "1"]]);
        ("yob2000.txt", []);
        ("yobABCD.txt", [["Bob"; "M"; "2"]])]
  = Raise EmptyDataError.
Proof.
  apply (@first_failure_decides _ ["yob1999.txt"] ["yobABCD.txt"]
           "yob2000.txt" EmptyDataError).
  - reflexivity.
  - constructor; [|constructor]. eexists. reflexivity.
  - reflexivity.
Defined.

(** ** The range of the year *)

Lemma lstrip_length (l : list ascii) :
  (List.length (Py.lstrip l) <= List.length l)%nat.
Proof.
  induction l as [|c l IH]; simpl; [lia|].
  destruct (Py.is_space c); simpl; lia.
Qed.

Lemma strip_length (l : list ascii) :
  (List.length (Py.strip l) <= List.length l)%nat.
Proof.
  unfold Py.strip. rewrite length_rev.
  etransitivity; [apply lstrip_length|]. rewrite length_rev.
  apply lstrip_length.
Qed.

(** What [n] characters of digits and underscores can add to [acc]. *)
Lemma digits_bound (l : list ascii) :
  forall acc after v,
    0 <= acc -> Py.digits acc after l = Some v ->
    0 <= v <= (acc + 1) * 10 ^ Z.of_nat (List.length l) - 1.
Proof.
  induction l as [|c l IH]; intros acc after v Hacc H.
  - simpl in H. destruct after; [|discriminate H]. injection H as <-.
    simpl. lia.
  - cbn [List.length]. rewrite Nat2Z.inj_succ, Z.pow_succ_r by lia.
    assert (Hp : 0 < 10 ^ Z.of_nat (List.length l)) by (apply Z.pow_pos_nonneg; lia).
    cbn [Py.digits] in H.
    destruct (Py.digit_value c) as [d|] eqn:Ed.
    + assert (Hd : 0 <= d <= 9).
      { unfold Py.digit_value in Ed.
        destruct ((48 <=? nat_of_ascii c)%nat && (nat_of_ascii c <=? 57)%nat) eqn:E;
          [|discriminate Ed].
        injection Ed as <-. apply andb_true_iff in E. destruct E as [L U].
        apply Nat.leb_le in L, U. lia. }
      apply IH in H; [|lia]. nia.
    + destruct ((c =? "_")%char && after); [|discriminate H].
      apply IH in H; [|lia]. nia.
Qed.

Lemma int_literal_bound (l : list ascii) (y : Z) :
  (List.length l <= 4)%nat -> Py.int_literal l = Some y -> -999 <= y <= 9999.
Proof.
  intros Hlen. unfold Py.int_literal.
  pose proof (strip_length l) as Hs.
  destruct (Py.strip l) as [|c l'] eqn:E.
  - simpl. discriminate.
  - cbn [List.length] in Hs.
    assert (Hp : forall n : nat, (n <= 3)%nat -> 10 ^ Z.of_nat n <= 1000).
    { intros n Hn. change 1000 with (10 ^ 3).
      apply Z.pow_le_mono_r; lia. }
    assert (Hunsigned : Py.digits 0 false (c :: l') = Some y -> -999 <= y <= 9999).
    { intros H. apply digits_bound in H; [|lia].
      cbn [List.length] in H. rewrite Nat2Z.inj_succ, Z.pow_succ_r in H by lia.
      specialize (Hp (List.length l')). lia. }
    assert (Hplus : Py.digits 0 false l' = Some y -> -999 <= y <= 9999).
    { intros H. apply digits_bound in H; [|lia].
      specialize (Hp (List.length l')). lia. }
    assert (Hminus : option_map Z.opp (Py.digits 0 false l') = Some y ->
                     -999 <= y <= 9999).
    { destruct (Py.digits 0 false l') as [v|] eqn:Ev; [|discriminate].
      simpl. intros H. injection H as <-.
      apply digits_bound in Ev; [|lia].
      specialize (Hp (List.length l')). lia. }
    destruct c as [[] [] [] [] [] [] [] []];
      first [exact Hunsigned | exact Hplus | exact Hminus].
Qed.

Lemma substring_length_le (n m : nat) (s : string) :
  (String.length (substring n m s) <= m)%nat.
Proof.
  revert n m. induction s as [|c s IH]; intros [|n] [|m]; simpl; try lia.
  - specialize (IH 0%nat m). lia.
  - apply (IH n 0%nat).
  - apply (IH n (S m)).
Qed.

Lemma length_list_ascii (s : string) :
  List.length (list_ascii_of_string s) = String.length s.
Proof. induction s as [|c s IH]; simpl; [reflexivity | now rewrite IH]. Qed.

(** X3. Every row of a table that the Loader returns has a year between -999
    and 9999: the year is read from four characters at most, and a sign
    takes one of them. *)
Theorem loaded_year_range (z : archive) (t : list RawRow) (r : RawRow) :
  data z = Ok t -> In r t -> -999 <= raw_year r <= 9999.
Proof.
  intros H Hr. apply data_ok_inv in H. destruct H as (dfs & HF & ->).
  apply in_concat in Hr. destruct Hr as (df' & Hdf & Hr).
  induction HF as [|file d fs dfs Hm _ IH].
  - contradiction.
  - destruct Hdf as [->|Hdf]; [|now apply IH].
    apply read_member_ok_inv in Hm. destruct Hm as (y & Hy & _ & _ & ->).
    apply in_map_iff in Hr. destruct Hr as (line & <- & _).
    cbn [raw_row raw_year].
    unfold Py.int in Hy.
    destruct (Py.int_literal (list_ascii_of_string (Py.slice 3 7 file)))
      as [y'|] eqn:E; [|discriminate Hy].
    injection Hy as <-. eapply int_literal_bound; [|exact E].
    rewrite length_list_ascii. apply substring_length_le.
Qed.

Lemma loaded_year_range_witness :
  -999 <= raw_year (mkRaw (Some "Alice") (Some "F") (Pd.CInt 80) 2000) <= 9999.
Proof.
  apply (@loaded_year_range two_years two_years_table).
  - reflexivity.
  - vm_compute. right; right; left. reflexivity.
Defined.

(** ** Names that end in ".txt" *)

Lemma substring_whole (s : string) : substring 0 (String.length s) s = s.
Proof. induction s as [|c s IH]; simpl; [reflexivity | now rewrite IH]. Qed.

Lemma substring_after (p s : string) :
  substring (String.length p) (String.length s) (p ++ s)%string = s.
Proof.
  induction p as [|c p IH]; simpl; [apply substring_whole | exact IH].
Qed.

Lemma length_append (p s : string) :
  String.length (p ++ s)%string = (String.length p + String.length s)%nat.
Proof. induction p as [|c p IH]; simpl; [reflexivity | now rewrite IH]. Qed.

Lemma substring_split (k : nat) (s : string) :
  (k <= String.length s)%nat ->
  s = (substring 0 k s ++ substring k (String.length s - k) s)%string.
Proof.
  revert k. induction s as [|c s IH]; intros [|k] Hk; simpl in *;
    try reflexivity; try lia.
  - now rewrite substring_whole.
  - f_equal. apply IH. lia.
Qed.

(** [endswith] holds exactly for the strings that are something followed
    by the suffix. *)
Lemma endswith_iff (s suffix : string) :
  Py.endswith s suffix = true <-> exists stem, s = (stem ++ suffix)%string.
Proof.
  unfold Py.endswith. split.
  - intros H. apply andb_true_iff in H. destruct H as [Hlen Heq].
    apply Nat.leb_le in Hlen. apply String.eqb_eq in Heq.
    exists (substring 0 (String.length s - String.length suffix)%nat s).
    pose proof (@substring_split (String.length s - String.length suffix)%nat s)
      as Hsp.
    replace (String.length s - (String.length s - String.length suffix))%nat
      with (String.length suffix) in Hsp by lia.
    rewrite Heq in Hsp. apply Hsp. lia.
  - intros [stem ->]. rewrite length_append.
    apply andb_true_iff. split; [apply Nat.leb_le; lia|].
    replace (String.length stem + String.length suffix - String.length suffix)%nat
      with (String.length stem) by lia.
    rewrite substring_after. apply String.eqb_refl.
Qed.

Lemma count_occ_files (z : archive) (file : string) :
  count_occ string_dec (files z) file
  = if Py.endswith file ".txt"
    then count_occ string_dec (namelist z) file
    else 0%nat.
Proof.
  unfold files. induction (namelist z) as [|f fs IH]; simpl.
  - now destruct (Py.endswith file ".txt").
  - destruct (Py.endswith f ".txt") eqn:Ef; simpl.
    + destruct (string_dec f file) as [->|Hne].
      * now rewrite Ef, IH, Ef.
      * exact IH.
    + destruct (string_dec f file) as [->|Hne]; [|exact IH].
      rewrite IH. now rewrite Ef.
Qed.

(** X4. The names the loop goes through are the names of the archive of the
    form stem ++ ".txt", the stem being anything, the empty string
    included; such a name is gone through as often as the archive lists
    it. *)
Theorem files_are_the_txt_names (z : archive) (file : string) :
  (In file (files z) <->
   In file (namelist z) /\ exists stem, file = (stem ++ ".txt")%string)
  /\ ((exists stem, file = (stem ++ ".txt")%string) ->
      count_occ string_dec (files z) file
      = count_occ string_dec (namelist z) file).
Proof.
  split.
  - unfold files. rewrite filter_In, endswith_iff. reflexivity.
  - intros H. apply endswith_iff in H. now rewrite count_occ_files, H.
Qed.

(** ** A name that the archive lists twice *)

Lemma find_app (A : Type) (f : A -> bool) (l1 l2 : list A) :
  find f (l1 ++ l2)
  = match find f l1 with
    | Some a => Some a
    | None => find f l2
    end.
Proof.
  induction l1 as [|a l1 IH]; simpl; [reflexivity|].
  now destruct (f a).
Qed.

Lemma open_shadowed (z1 z2 : archive) (file g : string)
  (rows rows' : list (list string)) :
  In file (namelist z2) ->
  open (z1 ++ (file, rows) :: z2) g = open (z1 ++ (file, rows') :: z2) g.
Proof.
  intros Hin. unfold open. rewrite !rev_app_distr. cbn [rev].
  rewrite <- !app_assoc, !find_app.
  destruct (find _ (rev z2)) as [m|] eqn:E; [reflexivity|].
  cbn [find app fst].
  destruct (String.eqb_spec file g) as [->|Hne]; [|reflexivity].
  exfalso. unfold namelist in Hin. apply in_map_iff in Hin.
  destruct Hin as (m & Hm & Hin).
  apply in_rev in Hin. pose proof (find_none _ _ E m Hin) as Hf.
  cbn beta in Hf. rewrite Hm, String.eqb_refl in Hf. discriminate Hf.
Qed.

(** X5. When a name is listed again further down the archive, the rows of the
    earlier member are never read: whatever they are, the outcome is the
    same. *)
Theorem shadowed_member_is_not_read (z1 z2 : archive) (file : string)
  (rows rows' : list (list string)) :
  In file (namelist z2) ->
  data (z1 ++ (file, rows) :: z2) = data (z1 ++ (file, rows') :: z2).
Proof.
  intros Hin. unfold data.
  assert (Hfiles : files (z1 ++ (file, rows) :: z2)
                   = files (z1 ++ (file, rows') :: z2)).
  { unfold files, namelist. now rewrite !map_app. }
  rewrite Hfiles.
  assert (G : forall fs dfs,
             read_members (z1 ++ (file, rows) :: z2) fs dfs
             = read_members (z1 ++ (file, rows') :: z2) fs dfs).
  { induction fs as [|f fs IH]; intros dfs; simpl; [reflexivity|].
    unfold read_member. rewrite (@open_shadowed z1 z2 file f rows rows' Hin).
    destruct (_ <- Pd.read_csv _ ;; _); simpl; [apply IH | reflexivity]. }
  now rewrite G.
Qed.

Lemma shadowed_member_is_not_read_witness :
  data ([] ++ ("yob1999.txt", [["Zoe"; "F"; "9"]])
           :: [("yob1999.txt", [["Alice"; "F"; "1"]])])
  = Ok [mkRaw (Some "Alice") (Some "F") (Pd.CInt 1) 1999;
        mkRaw (Some "Alice") (Some "F") (Pd.CInt 1) 1999].
Proof.
  exact (eq_trans
           (@shadowed_member_is_not_read []
              [("yob1999.txt", [["Alice"; "F"; "1"]])] "yob1999.txt"
              [["Zoe"; "F"; "9"]] [] (or_introl eq_refl))
           eq_refl).
Defined.

(** ** Archives that load into a typed table *)




Lemma typed_length (t : list RawRow) (t' : list Row) :
  typed t = Some t' -> List.length t' = List.length t.
Proof.
  revert t'. induction t as [|r t IH]; simpl; intros t' H.
  - now injection H as <-.
  - destruct (typed_row r); [|discriminate H].
    destruct (typed t) as [t''|]; [|discriminate H].
    injection H as <-. simpl. now rewrite (IH t'').
Qed.




(** ** What lines 28 and 35-36 leave alone *)

(** X7. Adding the columns drops, repeats and reorders no row and changes no
    name, sex, count or year; the labels of the enriched table are
    0, 1, 2, ... in the order of the rows. *)
Theorem columns_are_added_only (t : list Row) :
  map base (add_pct t) = t
  /\ map (fun ir => base (loaded (snd ir))) (enrich (add_pct t)) = t
  /\ map fst (enrich (add_pct t)) = seq 0 (List.length t).
Proof.
  assert (H1 : map base (add_pct t) = t).
  { rewrite add_pct_rows, map_map. cbn [base]. apply map_id. }
  assert (Hlen : List.length (add_prop (add_total_births (add_pct t)))
                 = List.length t).
  { now rewrite enrich_rows, add_pct_rows, !length_map. }
  split; [exact H1|]. split.
  - rewrite <- (map_map snd (fun r => base (loaded r))).
    unfold enrich, Pd.range_index. rewrite range_index_rows, enrich_rows.
    rewrite map_map. cbn [loaded]. exact H1.
  - unfold enrich, Pd.range_index. now rewrite range_index_labels, Hlen.
Qed.

(** ** When a proportion is not a number *)




(** ** The order of the rows and the other groups *)

Lemma group_sum_perm (t t' : list Row) (y : Z) (s : string) :
  Permutation t t' ->
  Pd.group_sum year sex count t y s = Pd.group_sum year sex count t' y s.
Proof.
  unfold Pd.group_sum. induction 1 as [|x l l' _ IH|x x' l|l l' l'' _ IH1 _ IH2];
    simpl.
  - reflexivity.
  - destruct (Pd.in_group year sex y s x); simpl; now rewrite IH.
  - destruct (Pd.in_group year sex y s x), (Pd.in_group year sex y s x');
      simpl; lia.
  - now rewrite IH1.
Qed.

(** X9. Reordering the rows of the table reorders the rows after line 28 in
    the same way and changes no proportion. *)
Theorem proportions_ignore_row_order (t t' : list Row) :
  Permutation t t' -> Permutation (add_pct t) (add_pct t').
Proof.
  intros H. rewrite !add_pct_rows.
  assert (E : map (fun r => mkPct r (Pd.truediv (count r)
                     (Pd.group_sum year sex count t' (year r) (sex r)))) t'
              = map (fun r => mkPct r (Pd.truediv (count r)
                     (Pd.group_sum year sex count t (year r) (sex r)))) t').
  { apply map_ext. intros r. now rewrite (group_sum_perm _ _ H). }
  rewrite E. now apply Permutation_map.
Qed.

Lemma proportions_ignore_row_order_witness :
  Permutation
    (add_pct [mkRow "Alice" "F" 60 1999; mkRow "Alice" "F" 40 1999])
    (add_pct [mkRow "Alice" "F" 40 1999; mkRow "Alice" "F" 60 1999]).
Proof.
  apply (@proportions_ignore_row_order
           [mkRow "Alice" "F" 60 1999; mkRow "Alice" "F" 40 1999]
           [mkRow "Alice" "F" 40 1999; mkRow "Alice" "F" 60 1999]).
  apply perm_swap.
Defined.

(** X10. The proportions of a group depend on the rows of that group only:
    two tables with the same rows in a group give these rows the same
    proportions, whatever their other rows are. *)
Theorem proportions_depend_on_own_group (t t' : list Row) (y : Z) (s : string) :
  filter (Pd.in_group year sex y s) t = filter (Pd.in_group year sex y s) t' ->
  filter (Pd.in_group df_year df_sex y s) (add_pct t)
  = filter (Pd.in_group df_year df_sex y s) (add_pct t').
Proof.
  intros H. rewrite !filter_group_add_pct, <- H.
  apply map_ext_in. intros r Hr. apply filter_In in Hr. destruct Hr as [_ Hg].
  apply in_group_keys in Hg. destruct Hg as [-> ->].
  unfold Pd.group_sum. now rewrite H.
Qed.

Lemma proportions_depend_on_own_group_witness :
  filter (Pd.in_group df_year df_sex 1999 "F") (add_pct two_sexes)
  = filter (Pd.in_group df_year df_sex 1999 "F")
      (add_pct [mkRow "Alice" "F" 60 1999; mkRow "Alice" "F" 40 1999;
                mkRow "Carl" "M" 1 1999; mkRow "Alice" "F" 9 2000]).
Proof.
  apply (@proportions_depend_on_own_group two_sexes
           [mkRow "Alice" "F" 60 1999; mkRow "Alice" "F" 40 1999;
            mkRow "Carl" "M" 1 1999; mkRow "Alice" "F" 9 2000] 1999 "F").
  reflexivity.
Defined.

(** ** The filter, once more *)

Lemma lower_char_idempotent (c : ascii) :
  Py.lower_char (Py.lower_char c) = Py.lower_char c.
Proof. destruct c as [[] [] [] [] [] [] [] []]; reflexivity. Qed.

Lemma lower_idempotent (s : string) : Py.lower (Py.lower s) = Py.lower s.
Proof.
  induction s as [|c s IH]; simpl; [reflexivity|].
  now rewrite lower_char_idempotent, IH.
Qed.

(** X11. The filter does not see the case of the name asked for: two names
    with the same lower-case form select the same rows, and so do a name
    and its lower-case form. *)
Theorem filter_ignores_case (df : list (nat * DfRow)) (year_range : Z * Z)
  (name1 name2 : string) :
  Py.lower name1 = Py.lower name2 ->
  filtered_data df year_range name1 = filtered_data df year_range name2
  /\ filtered_data df year_range (Py.lower name1)
     = filtered_data df year_range name1.
Proof.
  intros H. unfold filtered_data.
  now rewrite lower_idempotent, H.
Qed.

Lemma filter_ignores_case_witness :
  filtered_data (enrich (add_pct alice_years)) (1990, 2010) "ALICE"
  = filtered_data (enrich (add_pct alice_years)) (1990, 2010) "aLiCe"
  /\ filtered_data (enrich (add_pct alice_years)) (1990, 2010) (Py.lower "ALICE")
     = filtered_data (enrich (add_pct alice_years)) (1990, 2010) "ALICE".
Proof.
  apply (@filter_ignores_case (enrich (add_pct alice_years)) (1990, 2010)
           "ALICE" "aLiCe").
  reflexivity.
Defined.

Lemma filter_filter (A : Type) (f g : A -> bool) (l : list A) :
  filter g (filter f l) = filter (fun a => f a && g a) l.
Proof.
  induction l as [|a l IH]; simpl; [reflexivity|].
  destruct (f a); simpl; [|exact IH].
  destruct (g a); simpl; now rewrite IH.
Qed.

(** X12. Filtering again with a year range inside the first one gives what
    filtering with the inner range gives at once; a range whose first year
    comes after its last selects nothing. *)
Theorem filter_narrows (df : list (nat * DfRow)) (name_of_interest : string)
  (lo hi lo' hi' : Z) :
  lo <= lo' -> hi' <= hi ->
  filtered_data (filtered_data df (lo, hi) name_of_interest) (lo', hi')
    name_of_interest
  = filtered_data df (lo', hi') name_of_interest
  /\ (hi < lo -> filtered_data df (lo, hi) name_of_interest = []).
Proof.
  intros Hlo Hhi. unfold filtered_data. cbn [fst snd]. split.
  - rewrite filter_filter. apply filter_ext. intros ir.
    unfold between.
    destruct (Py.lower (row_name (snd ir)) =? Py.lower name_of_interest)%string;
      [|now rewrite !andb_false_r].
    rewrite !andb_true_r.
    destruct (Z.leb_spec lo' (row_year (snd ir))),
      (Z.leb_spec (row_year (snd ir)) hi'),
      (Z.leb_spec lo (row_year (snd ir))),
      (Z.leb_spec (row_year (snd ir)) hi); simpl; try reflexivity; lia.
  - intros Hinv. apply filter_none. intros ir _.
    apply andb_false_iff. left. unfold between.
    destruct (Z.leb_spec lo (row_year (snd ir))),
      (Z.leb_spec (row_year (snd ir)) hi); simpl; try reflexivity; lia.
Qed.

Lemma filter_narrows_witness :
  filtered_data
    (filtered_data (enrich (add_pct alice_years)) (1990, 2010) "alice")
    (2000, 2001) "alice"
  = filtered_data (enrich (add_pct alice_years)) (2000, 2001) "alice"
  /\ (2010 < 1990 ->
      filtered_data (enrich (add_pct alice_years)) (1990, 2010) "alice" = []).
Proof.
  apply (@filter_narrows (enrich (add_pct alice_years)) "alice"
           1990 2010 2000 2001); lia.
Defined.

(** ** The two lines of the first chart *)

Lemma filter_three_way (A : Type) (f g : A -> bool) (l : list A) :
  (forall a, f a = true -> g a = false) ->
  Permutation l
    (filter f l ++ filter g l ++ filter (fun a => negb (f a) && negb (g a)) l).
Proof.
  intros Hd. induction l as [|a l IH]; simpl; [constructor|].
  destruct (f a) eqn:Fa; simpl.
  - rewrite (Hd a Fa). simpl. now constructor.
  - destruct (g a) eqn:Ga; simpl.
    + apply Permutation_cons_app. exact IH.
    + rewrite app_assoc. apply Permutation_cons_app. now rewrite <- app_assoc.
Qed.

(** X13. The female line and the male line never share a row, and a filtered
    row is drawn on one of them exactly when its sex is "F" or "M": the
    filtered rows are the female rows, the male rows and the rows of any
    other sex, which no line shows. Whatever boxes are ticked, the lines
    have no more points than there are filtered rows. *)
Theorem lines_split_by_sex (filtered : list (nat * DfRow)) :
  Permutation filtered
    (sex_rows filtered "F" ++ sex_rows filtered "M"
     ++ filter (fun ir => negb (row_sex (snd ir) =? "F")%string
                          && negb (row_sex (snd ir) =? "M")%string) filtered)
  /\ (forall ir, In ir (sex_rows filtered "F") ->
                 ~ In ir (sex_rows filtered "M"))
  /\ (forall plot_female plot_male,
        (list_sum (map (fun line => List.length (snd line))
                     (tab1_lines filtered plot_female plot_male))
         <= List.length filtered)%nat).
Proof.
  assert (HP : Permutation filtered
                 (sex_rows filtered "F" ++ sex_rows filtered "M"
                  ++ filter (fun ir => negb (row_sex (snd ir) =? "F")%string
                               && negb (row_sex (snd ir) =? "M")%string)
                       filtered)).
  { apply (filter_three_way
             (fun ir => (row_sex (snd ir) =? "F")%string)
             (fun ir => (row_sex (snd ir) =? "M")%string)).
    intros ir H. apply String.eqb_eq in H. now rewrite H. }
  split; [exact HP|]. split.
  - unfold sex_rows. intros ir HF HM.
    apply filter_In in HF. apply filter_In in HM.
    destruct HF as [_ HF]. destruct HM as [_ HM].
    apply String.eqb_eq in HF. rewrite HF in HM. discriminate HM.
  - intros pf pm. apply Permutation_length in HP.
    rewrite !length_app in HP. unfold tab1_lines, line_points.
    destruct pf, pm; simpl; rewrite ?length_map; lia.
Qed.

(** ** The bars of the second chart *)


















(** ** Equal counts *)

(** [idxmax] keeps [best] when nothing after it is larger. *)
Lemma idxmax_from_keeps (s : list (nat * Z)) (best : nat * Z) :
  (forall p, In p s -> snd p <= snd best) ->
  Pd.idxmax_from best s = fst best.
Proof.
  revert best. induction s as [|p s IH]; intros best H; simpl; [reflexivity|].
  destruct (Z.ltb_spec (snd best) (snd p)) as [Hlt|_].
  - specialize (H p (or_introl eq_refl)). lia.
  - apply IH. intros q Hq. apply H. now right.
Qed.

(** [idxmax] moves on to the first element that is larger than all the
    ones before it and not smaller than any after it. *)
Lemma idxmax_from_first (s1 s2 : list (nat * Z)) (p best : nat * Z) :
  snd best < snd p ->
  (forall q, In q s1 -> snd q < snd p) ->
  (forall q, In q s2 -> snd q <= snd p) ->
  Pd.idxmax_from best (s1 ++ p :: s2) = fst p.
Proof.
  revert best. induction s1 as [|q s1 IH]; intros best Hb H1 H2; simpl.
  - destruct (Z.ltb_spec (snd best) (snd p)) as [_|Hge]; [|lia].
    now apply idxmax_from_keeps.
  - destruct (Z.ltb_spec (snd best) (snd q)) as [_|_]; apply IH; auto.
    + apply H1. now left.
    + intros x Hx. apply H1. now right.
    + intros x Hx. apply H1. now right.
Qed.

(** X16. Among the filtered rows with the largest count the first one, in the
    order of the table, gives the most popular year, and tab 2 reports that
    year. *)
Theorem most_popular_year_is_first_max (t : list PctRow) (year_range : Z * Z)
  (name_of_interest : string) (before after : list (nat * DfRow))
  (n : nat) (r : DfRow) :
  filtered_data (enrich t) year_range name_of_interest
  = before ++ (n, r) :: after ->
  (forall ir, In ir before -> row_count (snd ir) < row_count r) ->
  (forall ir, In ir after -> row_count (snd ir) <= row_count r) ->
  most_popular_year (filtered_data (enrich t) year_range name_of_interest)
  = Some (row_year r)
  /\ tab2_summary (filtered_data (enrich t) year_range name_of_interest)
     = Some (MostPopular (row_year r)).
Proof.
  intros Hfd Hb Ha.
  assert (Hnd : NoDup (map fst (before ++ (n, r) :: after))).
  { rewrite <- Hfd. apply filter_labels_nodup, enrich_labels_nodup. }
  assert (Hidx : Pd.idxmax (map (fun ir => (fst ir, row_count (snd ir)))
                              (before ++ (n, r) :: after)) = Some n).
  { destruct before as [|b before]; simpl.
    - f_equal. rewrite idxmax_from_keeps; [reflexivity|].
      intros p Hp. apply in_map_iff in Hp. destruct Hp as (ir & <- & Hir).
      now apply Ha.
    - f_equal. rewrite map_app. cbn [map].
      apply (idxmax_from_first
               (map (fun ir => (fst ir, row_count (snd ir))) before)
               (map (fun ir => (fst ir, row_count (snd ir))) after)
               (n, row_count r)).
      + apply Hb. now left.
      + intros q Hq. apply in_map_iff in Hq. destruct Hq as (ir & <- & Hir).
        apply Hb. now right.
      + intros q Hq. apply in_map_iff in Hq. destruct Hq as (ir & <- & Hir).
        now apply Ha. }
  assert (Hm : most_popular_year (before ++ (n, r) :: after)
               = Some (row_year r)).
  { unfold most_popular_year. rewrite Hidx.
    rewrite (@loc_unique _ (before ++ (n, r) :: after) n r Hnd);
      [reflexivity|].
    apply in_elt. }
  rewrite Hfd. split; [exact Hm|].
  unfold tab2_summary. rewrite Hm.
  now destruct before.
Qed.

Lemma most_popular_year_is_first_max_witness :
  most_popular_year
    (filtered_data (enrich (add_pct alice_years)) (1990, 2010) "alice")
  = Some 2000
  /\ tab2_summary
       (filtered_data (enrich (add_pct alice_years)) (1990, 2010) "alice")
     = Some (MostPopular 2000).
Proof.
  apply (@most_popular_year_is_first_max (add_pct alice_years) (1990, 2010)
           "alice"
           [(0%nat, mkDf (mkPct (mkRow "Alice" "F" 60 1999) (Pd.Fin 1))
                      60 (Pd.Fin 1))]
           [(3%nat, mkDf (mkPct (mkRow "alice" "F" 80 2001) (Pd.Fin 1))
                      80 (Pd.Fin 1))]
           1%nat
           (mkDf (mkPct (mkRow "Alice" "F" 80 2000) (Pd.Fin 1)) 80 (Pd.Fin 1))).
  - vm_compute. reflexivity.
  - intros ir [<-|[]]. vm_compute. reflexivity.
  - intros ir [<-|[]]. vm_compute. discriminate.
Defined.

(** ** The ends of the slider *)

Lemma fold_min_in (l : list Z) (x : Z) : In (fold_left Z.min l x) (x :: l).
Proof.
  revert x. induction l as [|a l IH]; intros x; simpl; [now left|].
  destruct (IH (Z.min x a)) as [H|H]; [|now right; right].
  rewrite <- H. destruct (Z.min_spec x a) as [[_ ->]|[_ ->]]; auto.
Qed.

Lemma fold_max_in (l : list Z) (x : Z) : In (fold_left Z.max l x) (x :: l).
Proof.
  revert x. induction l as [|a l IH]; intros x; simpl; [now left|].
  destruct (IH (Z.max x a)) as [H|H]; [|now right; right].
  rewrite <- H. destruct (Z.max_spec x a) as [[_ ->]|[_ ->]]; auto.
Qed.

Lemma data_ok_nonempty (z : archive) (t : list RawRow) :
  data z = Ok t -> t <> [].
Proof.
  intros H. pose proof H as H'. unfold data in H'.
  apply data_ok_inv in H. destruct H as (dfs & HF & ->).
  destruct HF as [|file df' fs dfs Hm _]; [discriminate H'|].
  destruct (read_member_rows z file Hm) as [_ Hd].
  simpl. destruct df'; [contradiction | discriminate].
Qed.

(** X17. After a load that gives a typed table, lines 58-59 always find a first
    and a last year: both are years of rows of the table, the first is not
    after the last, and every row lies between them. *)
Theorem slider_ends_exist (z : archive) (t : list PctRow) :
  load_name_data z = Ok (Some t) ->
  exists first last,
    year_min (enrich t) = Some first /\ year_max (enrich t) = Some last
    /\ first <= last
    /\ (forall ir, In ir (enrich t) -> first <= row_year (snd ir) <= last)
    /\ (exists ir, In ir (enrich t) /\ row_year (snd ir) = first)
    /\ (exists ir, In ir (enrich t) /\ row_year (snd ir) = last).
Proof.
  intros H. unfold load_name_data in H. bind_inv H.
  destruct (typed a) as [t'|] eqn:Et; [|discriminate H].
  simpl in H. injection H as <-.
  assert (Hne : enrich (add_pct t') <> []).
  { intros E. apply (f_equal (@List.length _)) in E.
    unfold enrich, Pd.range_index in E.
    rewrite length_combine, length_seq, Nat.min_id, enrich_rows, add_pct_rows,
      !length_map, (typed_length a Et) in E.
    apply (data_ok_nonempty z Ha). now destruct a. }
  unfold year_min, year_max.
  set (ys := map (fun ir => row_year (snd ir)) (enrich (add_pct t'))).
  assert (Hys : forall ir, In ir (enrich (add_pct t')) ->
                           In (row_year (snd ir)) ys).
  { intros ir Hir. apply (in_map (fun ir => row_year (snd ir))). exact Hir. }
  destruct ys as [|y ys'] eqn:Eys.
  { destruct (enrich (add_pct t')); [contradiction | discriminate Eys]. }
  simpl. exists (fold_left Z.min ys' y), (fold_left Z.max ys' y).
  destruct (fold_min_le ys' y) as [Hm1 Hm2].
  destruct (fold_max_ge ys' y) as [HM1 HM2].
  split; [reflexivity|]. split; [reflexivity|]. split; [lia|]. split; [|split].
  - intros ir Hir. destruct (Hys ir Hir) as [<-|Hy]; [lia|].
    specialize (Hm2 _ Hy). specialize (HM2 _ Hy). lia.
  - assert (Hin : In (fold_left Z.min ys' y) (y :: ys')) by apply fold_min_in.
    rewrite <- Eys in Hin. unfold ys in Hin. apply in_map_iff in Hin.
    destruct Hin as (ir & E & Hir). now exists ir.
  - assert (Hin : In (fold_left Z.max ys' y) (y :: ys')) by apply fold_max_in.
    rewrite <- Eys in Hin. unfold ys in Hin. apply in_map_iff in Hin.
    destruct Hin as (ir & E & Hir). now exists ir.
Qed.

Lemma slider_ends_exist_witness :
  exists first last,
    year_min (enrich (add_pct two_sexes)) = Some first
    /\ year_max (enrich (add_pct two_sexes)) = Some last
    /\ first <= last
    /\ (forall ir, In ir (enrich (add_pct two_sexes)) ->
                   first <= row_year (snd ir) <= last)
    /\ (exists ir, In ir (enrich (add_pct two_sexes))
                   /\ row_year (snd ir) = first)
    /\ (exists ir, In ir (enrich (add_pct two_sexes))
                   /\ row_year (snd ir) = last).
Proof.
  apply (@slider_ends_exist duplicates (add_pct two_sexes)). reflexivity.
Defined.

(** X18. With the slider at its two ends the year test lets every row through:
    the filter then selects by name alone. *)
Theorem full_range_filters_by_name (df : list (nat * DfRow))
  (first last : Z) (name_of_interest : string) :
  year_min df = Some first -> year_max df = Some last ->
  filtered_data df (first, last) name_of_interest
  = filter (fun ir =>
              (Py.lower (row_name (snd ir)) =? Py.lower name_of_interest)%string)
      df.
Proof.
  intros Hmin Hmax. unfold filtered_data. apply filter_ext_in.
  intros ir Hir. cbn [fst snd].
  assert (Hy : In (row_year (snd ir)) (map (fun ir => row_year (snd ir)) df))
    by (apply (in_map (fun ir => row_year (snd ir))); exact Hir).
  pose proof (@series_min_le _ _ _ Hmin Hy).
  pose proof (@series_max_ge _ _ _ Hmax Hy).
  unfold between.
  destruct (Z.leb_spec first (row_year (snd ir))); [|lia].
  destruct (Z.leb_spec (row_year (snd ir)) last); [|lia].
  reflexivity.
Qed.

Lemma full_range_filters_by_name_witness :
  filtered_data (enrich (add_pct alice_years)) (1999, 2001) "Alice"
  = filter (fun ir => (Py.lower (row_name (snd ir)) =? Py.lower "Alice")%string)
      (enrich (add_pct alice_years)).
Proof.
  apply (@full_range_filters_by_name (enrich (add_pct alice_years))
           1999 2001 "Alice"); reflexivity.
Defined.

(** ** The order of the members *)

Lemma open_unique (z : archive) (file : string) (rows : list (list string)) :
  NoDup (namelist z) -> In (file, rows) z -> open z file = rows.
Proof.
  intros Hnd Hin. unfold open.
  destruct (find (fun m => (fst m =? file)%string) (rev z)) as [m|] eqn:E.
  - apply find_some in E. destruct E as [Hm Hf].
    apply in_rev in Hm. apply String.eqb_eq in Hf.
    destruct m as [f rows']. simpl in Hf. subst f. simpl.
    clear -Hnd Hin Hm. unfold namelist in Hnd.
    induction z as [|m z IH]; [contradiction|].
    simpl in Hnd. inversion Hnd as [|? ? Hn Hz]; subst.
    destruct Hin as [->|Hin], Hm as [Hm|Hm].
    + now injection Hm.
    + exfalso. apply Hn. simpl.
      change file with (fst (file, rows')). now apply in_map.
    + exfalso. apply Hn. subst m. simpl.
      change file with (fst (file, rows)). now apply in_map.
    + now apply IH.
  - exfalso. apply (in_rev z) in Hin.
    pose proof (find_none _ _ E _ Hin) as Hf. cbn [fst] in Hf.
    now rewrite String.eqb_refl in Hf.
Qed.

Lemma open_absent (z : archive) (file : string) :
  ~ In file (namelist z) -> open z file = [].
Proof.
  intros Hn. unfold open.
  destruct (find (fun m => (fst m =? file)%string) (rev z)) as [m|] eqn:E;
    [|reflexivity].
  exfalso. apply find_some in E. destruct E as [Hm Hf].
  apply in_rev in Hm. apply String.eqb_eq in Hf. apply Hn.
  rewrite <- Hf. unfold namelist. now apply in_map.
Qed.

(** Archives with the same members, none listed twice, open alike. *)
Lemma open_perm (z z' : archive) (file : string) :
  Permutation z z' -> NoDup (namelist z) -> open z file = open z' file.
Proof.
  intros HP Hnd.
  assert (Hnd' : NoDup (namelist z')).
  { apply (Permutation_NoDup (l := namelist z)); [|exact Hnd].
    unfold namelist. now apply Permutation_map. }
  destruct (in_dec string_dec file (namelist z)) as [Hin|Hn].
  - unfold namelist in Hin. apply in_map_iff in Hin.
    destruct Hin as ([f rows] & Hf & Hin). simpl in Hf. subst f.
    rewrite (@open_unique z file rows Hnd Hin).
    symmetry. apply (@open_unique z' file rows Hnd').
    now apply (Permutation_in _ HP).
  - rewrite (@open_absent z file Hn). symmetry. apply open_absent.
    intros Hin. apply Hn. unfold namelist in *.
    apply (Permutation_in _ (Permutation_sym (Permutation_map fst HP))).
    exact Hin.
Qed.

Lemma filter_perm (A : Type) (f : A -> bool) (l l' : list A) :
  Permutation l l' -> Permutation (filter f l) (filter f l').
Proof.
  induction 1 as [|x l l' _ IH|x y l|l l' l'' _ IH1 _ IH2]; simpl.
  - constructor.
  - destruct (f x); [now constructor | exact IH].
  - destruct (f x), (f y); try apply Permutation_refl.
    apply perm_swap.
  - now transitivity (filter f l').
Qed.

(** The frame of a member, empty when the member does not read. *)
Lemma read_members_frames (z : archive) (fs : list string) :
  Forall (fun f => exists df', read_member z f = Ok df') fs ->
  read_members z fs []
  = Ok (map (fun f => match read_member z f with
                      | Ok df' => df'
                      | Raise _ => []
                      end) fs).
Proof.
  intros H. apply read_members_ok.
  induction H as [|f fs [df' Hf] _ IH]; simpl; constructor; [|exact IH].
  now rewrite Hf.
Qed.

(** X19. When no name is listed twice, the order of the members in the archive
    decides the order of the rows and nothing else: an archive with the
    same members in another order loads exactly when this one does, into a
    table with the same rows. *)
Theorem member_order_only_reorders_rows (z z' : archive) (t : list RawRow) :
  Permutation z z' -> NoDup (namelist z) ->
  data z = Ok t ->
  exists t', data z' = Ok t' /\ Permutation t t'.
Proof.
  intros HP Hnd H.
  assert (Hfs : Permutation (files z) (files z')).
  { unfold files, namelist. apply filter_perm. now apply Permutation_map. }
  assert (Hm : forall f, read_member z' f = read_member z f).
  { intros f. unfold read_member. now rewrite (@open_perm z z' f HP Hnd). }
  pose proof H as Hne. unfold data in Hne.
  apply data_ok_inv in H. destruct H as (dfs & HF & ->).
  assert (Hall : Forall (fun f => exists df', read_member z f = Ok df') (files z)).
  { clear -HF. induction HF; constructor; eauto. }
  assert (Hall' : Forall (fun f => exists df', read_member z' f = Ok df') (files z')).
  { apply (Permutation_Forall Hfs). apply Forall_forall. intros f Hf.
    rewrite Forall_forall in Hall. rewrite Hm. now apply Hall. }
  pose proof (@read_members_frames z _ Hall) as E.
  pose proof (@read_members_frames z' _ Hall') as E'.
  apply read_members_ok in HF. rewrite HF in E. injection E as ->.
  unfold data. rewrite E'. cbn [bind].
  assert (Hne' : files z' <> []).
  { intros E0. rewrite E0 in Hfs.
    apply Permutation_sym, Permutation_nil in Hfs. rewrite Hfs in Hne.
    discriminate Hne. }
  exists (List.concat
            (map (fun f => match read_member z' f with
                           | Ok df' => df'
                           | Raise _ => []
                           end) (files z'))).
  split.
  - destruct (files z'); [contradiction | reflexivity].
  - rewrite <- !flat_map_concat_map.
    assert (Ext : flat_map (fun f => match read_member z' f with
                                     | Ok df' => df' | Raise _ => [] end)
                    (files z')
                  = flat_map (fun f => match read_member z f with
                                       | Ok df' => df' | Raise _ => [] end)
                      (files z')).
    { apply flat_map_ext. intros f. now rewrite Hm. }
    rewrite Ext. now apply Permutation_flat_map.
Qed.

Lemma member_order_only_reorders_rows_witness :
  exists t',
    data three_years = Ok t'
    /\ Permutation
         [mkRaw (Some "Alice") (Some "F") (Pd.CInt 100) 1999;
          mkRaw (Some "Bob") (Some "M") (Pd.CInt 50) 1999;
          mkRaw (Some "Alice") (Some "F") (Pd.CInt 80) 2000;
          mkRaw (Some "Cleo") (Some "F") (Pd.CInt 7) 2001]
         t'.
Proof.
  apply (@member_order_only_reorders_rows
           [("yob1999.txt", [["Alice"; "F"; "100"]; ["Bob"; "M"; "50"]]);
            ("yob2000.txt", [["Alice"; "F"; "80"]]);
            ("yob2001.txt", [["Cleo"; "F"; "7"]])]
           three_years).
  - apply Permutation_sym. apply (Permutation_cons_app [_; _] []).
    apply Permutation_refl.
  - repeat constructor; simpl; intuition discriminate.
  - reflexivity.
Defined.
